(** * Analytical free-fall oracle: [computation_utilities.py]

    A shallow embedding of the two classes of
    [examples/utilities/computation_utilities.py]:

    - [Object], which maps initial conditions to the coefficients of the
      per-axis motion equation [a*t**2 + b*t + c], and
    - [SecondOrderEq], which solves that equation and selects the time of
      contact with the ground.

    The Python code is dynamically typed and written against numpy.  The
    embedding keeps the two features of that setting the properties below
    depend on:

    - values are numpy scalars or one-dimensional numpy arrays, combined
      with numpy's broadcasting rules; indexing and arithmetic that Python
      would reject return an exception instead of a value;
    - the arithmetic is an interface ([Number]) with two instances: IEEE
      binary64 ([float], what numpy's float64 computes, special values
      included) and exact real arithmetic ([R], the reading in which the
      algebraic identities of the motion equation hold).

    Scope.  Arrays have dtype float64 and one dimension; a Python list
    stands for the float64 array [np.array] makes of it, so the list
    [[0, 0, 10]] is read as [[0.0, 0.0, 10.0]].  Scalars are [numpy.float64]
    values, as indexing an array produces them; plain Python floats and
    ints, as coefficients or as gravity, are outside the model.  numpy's
    error state is the default one and the module's
    [warnings.filterwarnings] call is in force: floating-point exceptions
    are warnings, and those are ignored.

    Squaring.  [x**2] is two different computations in numpy: the elements
    of an array are squared as [x*x], while a [numpy.float64] scalar is
    passed to C's [pow].  The interface keeps them apart ([mul] and
    [pow2]), and a property that holds for every instance of the interface
    holds whatever value the platform's [pow] returns. *)

From Stdlib Require Import ZArith List Bool Floats Reals Lra Psatz.
Import ListNotations.

Set Implicit Arguments.

(** ** Python exceptions and results *)

(** The exceptions the modelled operations can raise. *)
Inductive exn : Type :=
| TypeError    (* an operand of the wrong Python type *)
| IndexError   (* indexing a scalar, or past the end of an array *)
| ValueError.  (* operands that cannot be broadcast together *)

(** The outcome of evaluating a Python expression. *)
Inductive result (A : Type) : Type :=
| Ok (x : A)
| Raise (e : exn).

Arguments Ok {A} x.
Arguments Raise {A} e.

Definition bind {A B : Type} (m : result A) (k : A -> result B) : result B :=
  match m with
  | Ok x => k x
  | Raise e => Raise e
  end.

Notation "x <- m ;; k" := (bind m (fun x => k))
  (at level 61, m at next level, right associativity).

(** ** The arithmetic interface *)

(** The scalar operations the source applies to array elements, the power
    [x**2] of a scalar ([pow2], C's [pow(x, 2.0)]), and the numeric literals
    the source contains: [0] (in [r1 < 0] and in the default gravity),
    [0.5], [2], [4] and [-9.81]. *)
Class Number (F : Type) : Type := {
  add : F -> F -> F;
  sub : F -> F -> F;
  mul : F -> F -> F;
  div : F -> F -> F;
  neg : F -> F;
  sqrt : F -> F;
  pow2 : F -> F;
  lt : F -> F -> bool;
  zero : F;
  half : F;
  two : F;
  four : F;
  minus_9_81 : F
}.

(** numpy float64: IEEE 754 binary64, round to nearest even.  The source
    silences numpy's RuntimeWarning, so an invalid operation or a division
    by zero yields NaN or an infinity and nothing else happens.

    [pow2] is the [pow(x, 2.0)] of a C library that rounds correctly.  The
    platform's library returns the same value on NaN, on the infinities and
    wherever [x*x] is exactly representable, and may return the
    neighbouring float when [x*x] is not; this instance is used where that
    makes no difference (closed examples that square 0 or 1, and the
    propagation of NaN and infinities). *)
#[warnings="-inexact-float"] Instance Number_float : Number float := {
  add := PrimFloat.add;
  sub := PrimFloat.sub;
  mul := PrimFloat.mul;
  div := PrimFloat.div;
  neg := PrimFloat.opp;
  sqrt := PrimFloat.sqrt;
  pow2 := fun x => PrimFloat.mul x x;
  lt := PrimFloat.ltb;
  zero := 0%float;
  half := 0.5%float;
  two := 2%float;
  four := 4%float;
  minus_9_81 := (-9.81)%float
}.

(** binary64 with the [pow(x, 2.0)] of an arbitrary C library, for the
    properties of scalar coefficients that must not depend on it. *)
Definition binary64 (pw : float -> float) : Number float := {|
  add := PrimFloat.add;
  sub := PrimFloat.sub;
  mul := PrimFloat.mul;
  div := PrimFloat.div;
  neg := PrimFloat.opp;
  sqrt := PrimFloat.sqrt;
  pow2 := pw;
  lt := PrimFloat.ltb;
  zero := zero (F := float);
  half := half (F := float);
  two := two (F := float);
  four := four (F := float);
  minus_9_81 := minus_9_81 (F := float)
|}.

(** Exact real arithmetic.  There is no NaN here: [sqrt] of a negative
    number and division by zero are unspecified values, so the results on
    this instance speak only of axes whose discriminant is not negative and
    whose leading coefficient is not zero. *)
Definition Rltb (x y : R) : bool := if Rlt_dec x y then true else false.

Instance Number_R : Number R := {
  add := Rplus;
  sub := Rminus;
  mul := Rmult;
  div := Rdiv;
  neg := Ropp;
  sqrt := R_sqrt.sqrt;
  pow2 := fun x => Rmult x x;
  lt := Rltb;
  zero := 0%R;
  half := (1 / 2)%R;
  two := 2%R;
  four := 4%R;
  minus_9_81 := (- (981 / 100))%R
}.

(** ** numpy values *)

Section Numpy.
Context {F : Type} {num : Number F}.

(** A numpy value of dtype float64: a scalar ([numpy.float64]) or a
    one-dimensional array of any length. *)
Inductive ndvalue : Type :=
| Scalar (x : F)
| Array (xs : list F).

(** What the caller may pass where the source expects a vector: a plain
    Python list of numbers or a numpy value. *)
Inductive array_like : Type :=
| PyList (xs : list F)
| NdValue (v : ndvalue).

(** An arbitrary Python argument, as far as the source can tell one from
    another. *)
Inductive pyobj : Type :=
| PyNone
| ArrayLike (x : array_like).

(** [np.array(x)] *)
Definition np_array (x : array_like) : ndvalue :=
  match x with
  | PyList xs => Array xs
  | NdValue v => v
  end.

Fixpoint map2 (op : F -> F -> F) (xs ys : list F) : list F :=
  match xs, ys with
  | x :: xs', y :: ys' => op x y :: map2 op xs' ys'
  | _, _ => []
  end.

(** A binary ufunc.  Two arrays must have the same length unless one of
    them has length one; a scalar combines with anything. *)
Definition broadcast (op : F -> F -> F) (v w : ndvalue) : result ndvalue :=
  match v, w with
  | Scalar x, Scalar y => Ok (Scalar (op x y))
  | Scalar x, Array ys => Ok (Array (map (op x) ys))
  | Array xs, Scalar y => Ok (Array (map (fun x => op x y) xs))
  | Array xs, Array ys =>
      match xs, ys with
      | [x], _ => Ok (Array (map (op x) ys))
      | _, [y] => Ok (Array (map (fun x => op x y) xs))
      | _, _ =>
          if Nat.eqb (length xs) (length ys)
          then Ok (Array (map2 op xs ys))
          else Raise ValueError
      end
  end.

(** A unary ufunc. *)
Definition ufunc (f : F -> F) (v : ndvalue) : ndvalue :=
  match v with
  | Scalar x => Scalar (f x)
  | Array xs => Array (map f xs)
  end.

(** [k * v] for a Python number literal [k]. *)
Definition scale (k : F) (v : ndvalue) : ndvalue := ufunc (mul k) v.

(** The square of an array element, [x*x]. *)
Definition square (x : F) : F := mul x x.

(** [v**2].  numpy squares the elements of an array as [x*x]; a float64
    scalar goes through C's [pow]. *)
Definition power2 (v : ndvalue) : ndvalue :=
  match v with
  | Scalar x => Scalar (pow2 x)
  | Array xs => Array (map square xs)
  end.

(** [v[i]] for a non-negative literal [i]. *)
Definition getitem (v : ndvalue) (i : nat) : result F :=
  match v with
  | Scalar _ => Raise IndexError
  | Array xs =>
      match nth_error xs i with
      | Some x => Ok x
      | None => Raise IndexError
      end
  end.

End Numpy.

Arguments ndvalue F : clear implicits.
Arguments array_like F : clear implicits.
Arguments pyobj F : clear implicits.

(** ** class Object *)

Module Object.
Section Object.
Context {F : Type} {num : Number F}.

(** The attributes [__init__] sets. *)
Record t : Type := mk {
  pos : ndvalue F;
  vel : ndvalue F;
  collision_condition : ndvalue F;
  g : pyobj F
}.

(** The default of the parameter [g]: [np.array([0, 0, -9.81])]. *)
Definition default_g : pyobj F :=
  ArrayLike (NdValue (Array [zero; zero; minus_9_81])).

(** [Object(pos, vel, collision_condition, g)]; [None] for [g_arg] stands
    for a call that leaves the parameter out. *)
Definition __init__ (pos_arg vel_arg collision_condition_arg : array_like F)
    (g_arg : option (pyobj F)) : t :=
  {| pos := np_array pos_arg;
     vel := np_array vel_arg;
     collision_condition := np_array collision_condition_arg;
     g := match g_arg with
          | Some o => o
          | None => default_g
          end |}.

(** [0.5 * self.g].  A Python float times a list or [None] is a
    [TypeError]. *)
Definition get_a (self : t) : result (ndvalue F) :=
  match g self with
  | PyNone => Raise TypeError
  | ArrayLike (PyList _) => Raise TypeError
  | ArrayLike (NdValue v) => Ok (scale half v)
  end.

Definition get_b (self : t) : ndvalue F := vel self.

Definition get_c (self : t) : result (ndvalue F) :=
  broadcast sub (pos self) (collision_condition self).

Definition get_eq (self : t)
  : result (ndvalue F * ndvalue F * ndvalue F) :=
  a <- get_a self ;;
  c <- get_c self ;;
  Ok (a, get_b self, c).

Definition get_eq_z (self : t) : result (F * F * F) :=
  a <- get_a self ;;
  a2 <- getitem a 2 ;;
  b2 <- getitem (get_b self) 2 ;;
  c <- get_c self ;;
  c2 <- getitem c 2 ;;
  Ok (a2, b2, c2).

End Object.
Arguments t F : clear implicits.
End Object.

(** ** class SecondOrderEq *)

Module SecondOrderEq.
Section SecondOrderEq.
Context {F : Type} {num : Number F}.

Record t : Type := __init__ {
  a : ndvalue F;
  b : ndvalue F;
  c : ndvalue F
}.

(** [self.b**2 - 4 * self.a * self.c] *)
Definition discriminant (self : t) : result (ndvalue F) :=
  let b2 := power2 (b self) in
  ac4 <- broadcast mul (scale four (a self)) (c self) ;;
  broadcast sub b2 ac4.

Definition roots (self : t) : result (ndvalue F * ndvalue F) :=
  d <- discriminant self ;;
  n1 <- broadcast sub (ufunc neg (b self)) (ufunc sqrt d) ;;
  r1 <- broadcast div n1 (scale two (a self)) ;;
  d' <- discriminant self ;;
  n2 <- broadcast add (ufunc neg (b self)) (ufunc sqrt d') ;;
  r2 <- broadcast div n2 (scale two (a self)) ;;
  Ok (r1, r2).

Definition get_time_contact_ground (self : t) : result F :=
  rs <- roots self ;;
  r1 <- getitem (fst rs) 2 ;;
  r2 <- getitem (snd rs) 2 ;;
  Ok (if lt r1 zero then r2 else r1).

Definition get_distance_at_contact_ground (self : t) : result (ndvalue F) :=
  t <- get_time_contact_ground self ;;
  at2 <- broadcast mul (a self) (Scalar (pow2 t)) ;;
  bt <- broadcast mul (b self) (Scalar t) ;;
  s <- broadcast add at2 bt ;;
  broadcast add s (c self).

End SecondOrderEq.
Arguments t F : clear implicits.
End SecondOrderEq.

(** ** The quadratic formula, as the specification words it *)

Section Formula.
Context {F : Type} {num : Number F}.

(** [b^2 - 4ac] on one axis of array coefficients, where [b^2] is [b*b]. *)
Definition disc (a b c : F) : F := sub (mul b b) (mul (mul four a) c).

(** The "minus" root [(-b - sqrt(disc)) / (2a)]. *)
Definition root_minus (a b c : F) : F :=
  div (sub (neg b) (sqrt (disc a b c))) (mul two a).

(** The "plus" root [(-b + sqrt(disc)) / (2a)]. *)
Definition root_plus (a b c : F) : F :=
  div (add (neg b) (sqrt (disc a b c))) (mul two a).

(** The same three formulas on scalar coefficients, where [b^2] is
    [pow(b, 2)]. *)
Definition disc_scalar (a b c : F) : F :=
  sub (pow2 b) (mul (mul four a) c).

Definition root_minus_scalar (a b c : F) : F :=
  div (sub (neg b) (sqrt (disc_scalar a b c))) (mul two a).

Definition root_plus_scalar (a b c : F) : F :=
  div (add (neg b) (sqrt (disc_scalar a b c))) (mul two a).

(** The selection policy: the second root if the first is negative. *)
Definition select (r1 r2 : F) : F := if lt r1 zero then r2 else r1.

(** [a*t^2 + b*t + c] at a scalar time [t], where [t^2] is [pow(t, 2)]. *)
Definition motion (a b c t : F) : F :=
  add (add (mul a (pow2 t)) (mul b t)) c.

(** Three lists combined component by component. *)
Fixpoint map3 (f : F -> F -> F -> F) (xs ys zs : list F) : list F :=
  match xs, ys, zs with
  | x :: xs', y :: ys', z :: zs' => f x y z :: map3 f xs' ys' zs'
  | _, _, _ => []
  end.

(** A three-component vector, as a Python list and as a numpy array. *)
Definition vec3 (x y z : F) : array_like F := PyList [x; y; z].
Definition arr3 (x y z : F) : ndvalue F := Array [x; y; z].

End Formula.

(** ** Special values of binary64 *)

(** NaN or an infinity, on the specification side of a binary64 value. *)
Definition SFspecial (s : spec_float) : bool :=
  match s with
  | S754_nan | S754_infinity _ => true
  | S754_zero _ | S754_finite _ _ _ => false
  end.

(** NaN or an infinity ([numpy.isnan(x) or numpy.isinf(x)]). *)
Definition special (x : float) : bool := is_nan x || is_infinity x.

(** An axis on which the quadratic formula is mathematically invalid: the
    discriminant is negative, or the leading coefficient is zero. *)
Definition degenerate (a b c : float) : bool :=
  PrimFloat.ltb (disc a b c) 0%float || PrimFloat.eqb a 0%float.

(** ** Roots in exact arithmetic *)

(** [t] solves [a*t^2 + b*t + c = 0]. *)
Definition is_root (a b c t : R) : Prop := motion a b c t = 0%R.

(** ** Evaluation lemmas, for any arithmetic *)

Section Generic.
Context {F : Type} {num : Number F}.

Lemma broadcast_same_length (op : F -> F -> F) (xs ys : list F) :
  length xs = length ys ->
  broadcast op (Array xs) (Array ys) = Ok (Array (map2 op xs ys)).
Proof.
  intros Hlen.
  destruct xs as [|x [|x' xs']], ys as [|y [|y' ys']];
    simpl in Hlen; try discriminate; try reflexivity.
  injection Hlen as Hlen.
  unfold broadcast. simpl length. rewrite Hlen, Nat.eqb_refl. reflexivity.
Qed.

Lemma map2_length (op : F -> F -> F) (xs ys : list F) :
  length xs = length ys -> length (map2 op xs ys) = length xs.
Proof.
  revert ys; induction xs as [|x xs IH]; intros [|y ys] Hlen;
    simpl in *; try discriminate; auto.
Qed.

Lemma discriminant_as_map3 (xs ys zs : list F) :
  map2 sub (map square ys) (map2 mul (map (mul four) xs) zs)
  = map3 disc xs ys zs.
Proof.
  revert ys zs; induction xs as [|x xs IH]; intros [|y ys] [|z zs];
    simpl; try reflexivity.
  unfold disc at 1, square at 1. now rewrite IH.
Qed.

Lemma discriminant_arrays (xs ys zs : list F) :
  length xs = length ys -> length ys = length zs ->
  SecondOrderEq.discriminant
    (SecondOrderEq.__init__ (Array xs) (Array ys) (Array zs))
  = Ok (Array (map3 disc xs ys zs)).
Proof.
  intros Hxy Hyz. unfold SecondOrderEq.discriminant, scale.
  cbn [SecondOrderEq.a SecondOrderEq.b SecondOrderEq.c ufunc power2].
  rewrite broadcast_same_length by (rewrite length_map; congruence).
  cbn [bind]. rewrite broadcast_same_length.
  - now rewrite discriminant_as_map3.
  - rewrite length_map, map2_length; rewrite length_map; congruence.
Qed.

Lemma map3_length (f : F -> F -> F -> F) (xs ys zs : list F) :
  length xs = length ys -> length ys = length zs ->
  length (map3 f xs ys zs) = length xs.
Proof.
  revert ys zs; induction xs as [|x xs IH]; intros [|y ys] [|z zs] H1 H2;
    simpl in *; try discriminate; auto.
Qed.

Lemma root_minus_as_map3 (xs ys zs : list F) :
  length xs = length ys -> length ys = length zs ->
  map2 div (map2 sub (map neg ys) (map sqrt (map3 disc xs ys zs)))
       (map (mul two) xs)
  = map3 root_minus xs ys zs.
Proof.
  revert ys zs; induction xs as [|x xs IH]; intros [|y ys] [|z zs] H1 H2;
    simpl in *; try discriminate; try reflexivity.
  unfold root_minus at 1. rewrite IH by congruence. reflexivity.
Qed.

Lemma root_plus_as_map3 (xs ys zs : list F) :
  length xs = length ys -> length ys = length zs ->
  map2 div (map2 add (map neg ys) (map sqrt (map3 disc xs ys zs)))
       (map (mul two) xs)
  = map3 root_plus xs ys zs.
Proof.
  revert ys zs; induction xs as [|x xs IH]; intros [|y ys] [|z zs] H1 H2;
    simpl in *; try discriminate; try reflexivity.
  unfold root_plus at 1. rewrite IH by congruence. reflexivity.
Qed.

Lemma roots_arrays (xs ys zs : list F) :
  length xs = length ys -> length ys = length zs ->
  SecondOrderEq.roots
    (SecondOrderEq.__init__ (Array xs) (Array ys) (Array zs))
  = Ok (Array (map3 root_minus xs ys zs), Array (map3 root_plus xs ys zs)).
Proof.
  intros Hxy Hyz. unfold SecondOrderEq.roots.
  rewrite discriminant_arrays by assumption.
  unfold scale.
  cbn [SecondOrderEq.a SecondOrderEq.b SecondOrderEq.c ufunc bind].
  assert (Hd : length (map sqrt (map3 disc xs ys zs)) = length ys)
    by (rewrite length_map, map3_length; congruence).
  assert (Hn1 : length (map2 sub (map neg ys) (map sqrt (map3 disc xs ys zs)))
                = length (map (mul two) xs))
    by (rewrite map2_length; rewrite ?Hd, !length_map; congruence).
  assert (Hn2 : length (map2 add (map neg ys) (map sqrt (map3 disc xs ys zs)))
                = length (map (mul two) xs))
    by (rewrite map2_length; rewrite ?Hd, !length_map; congruence).
  rewrite (broadcast_same_length sub) by (rewrite length_map; congruence).
  cbn [bind]. rewrite (broadcast_same_length div) by assumption.
  cbn [bind].
  rewrite (broadcast_same_length add) by (rewrite length_map; congruence).
  cbn [bind]. rewrite (broadcast_same_length div) by assumption.
  cbn [bind].
  now rewrite root_minus_as_map3, root_plus_as_map3.
Qed.

Lemma time_of_roots (self : SecondOrderEq.t F) (r1 r2 : ndvalue F)
    (x1 x2 : F) :
  SecondOrderEq.roots self = Ok (r1, r2) ->
  getitem r1 2 = Ok x1 ->
  getitem r2 2 = Ok x2 ->
  SecondOrderEq.get_time_contact_ground self = Ok (select x1 x2).
Proof.
  intros Hroots H1 H2. unfold SecondOrderEq.get_time_contact_ground.
  rewrite Hroots. cbn [bind fst snd]. rewrite H1, H2. reflexivity.
Qed.

Lemma time_vec3 (a0 a1 a2 b0 b1 b2 c0 c1 c2 : F) :
  SecondOrderEq.get_time_contact_ground
    (SecondOrderEq.__init__ (arr3 a0 a1 a2) (arr3 b0 b1 b2) (arr3 c0 c1 c2))
  = Ok (select (root_minus a2 b2 c2) (root_plus a2 b2 c2)).
Proof.
  apply time_of_roots
    with (r1 := Array (map3 root_minus [a0; a1; a2] [b0; b1; b2] [c0; c1; c2]))
         (r2 := Array (map3 root_plus [a0; a1; a2] [b0; b1; b2] [c0; c1; c2]));
    [ apply roots_arrays; reflexivity | reflexivity | reflexivity ].
Qed.

Lemma distance_vec3 (a0 a1 a2 b0 b1 b2 c0 c1 c2 : F) :
  SecondOrderEq.get_distance_at_contact_ground
    (SecondOrderEq.__init__ (arr3 a0 a1 a2) (arr3 b0 b1 b2) (arr3 c0 c1 c2))
  = let t := select (root_minus a2 b2 c2) (root_plus a2 b2 c2) in
    Ok (arr3 (motion a0 b0 c0 t) (motion a1 b1 c1 t) (motion a2 b2 c2 t)).
Proof.
  unfold SecondOrderEq.get_distance_at_contact_ground.
  rewrite time_vec3. reflexivity.
Qed.

Lemma time_scalars (a b c : F) :
  SecondOrderEq.get_time_contact_ground
    (SecondOrderEq.__init__ (Scalar a) (Scalar b) (Scalar c))
  = Raise IndexError.
Proof. reflexivity. Qed.

Lemma distance_scalars (a b c : F) :
  SecondOrderEq.get_distance_at_contact_ground
    (SecondOrderEq.__init__ (Scalar a) (Scalar b) (Scalar c))
  = Raise IndexError.
Proof. reflexivity. Qed.

Lemma time_short_arrays (xs ys zs : list F) :
  length xs = length ys -> length ys = length zs -> length xs < 3 ->
  SecondOrderEq.get_time_contact_ground
    (SecondOrderEq.__init__ (Array xs) (Array ys) (Array zs))
  = Raise IndexError.
Proof.
  intros Hxy Hyz Hshort. unfold SecondOrderEq.get_time_contact_ground.
  rewrite (roots_arrays xs ys zs Hxy Hyz). cbn [bind fst getitem].
  assert (Hnone : nth_error (map3 root_minus xs ys zs) 2 = None)
    by (apply nth_error_None; rewrite map3_length by assumption;
        apply PeanoNat.lt_n_Sm_le, Hshort).
  now rewrite Hnone.
Qed.

Lemma distance_short_arrays (xs ys zs : list F) :
  length xs = length ys -> length ys = length zs -> length xs < 3 ->
  SecondOrderEq.get_distance_at_contact_ground
    (SecondOrderEq.__init__ (Array xs) (Array ys) (Array zs))
  = Raise IndexError.
Proof.
  intros Hxy Hyz Hshort. unfold SecondOrderEq.get_distance_at_contact_ground.
  now rewrite (time_short_arrays xs ys zs Hxy Hyz Hshort).
Qed.

Lemma get_eq_vec3 (p0 p1 p2 v0 v1 v2 k0 k1 k2 g0 g1 g2 : F) :
  Object.get_eq
    (Object.__init__ (vec3 p0 p1 p2) (vec3 v0 v1 v2) (vec3 k0 k1 k2)
       (Some (ArrayLike (NdValue (arr3 g0 g1 g2)))))
  = Ok (arr3 (mul half g0) (mul half g1) (mul half g2),
        arr3 v0 v1 v2,
        arr3 (sub p0 k0) (sub p1 k1) (sub p2 k2)).
Proof. reflexivity. Qed.

(** C8: for every coefficient triple, [discriminant()] is [b^2 - 4ac] and
    [roots()] is the pair of [(-b - sqrt(discriminant)) / (2a)] and
    [(-b + sqrt(discriminant)) / (2a)]; for vector coefficients (arrays of a
    common length) both are computed component by component.  The square
    [b^2] is [pow(b, 2)] on scalar coefficients and [b*b] on each component
    of vector coefficients; the statement holds for every arithmetic, so
    for whatever [pow] returns. *)
Theorem discriminant_and_roots_follow_the_formula :
  (forall a b c : F,
      let self := SecondOrderEq.__init__ (Scalar a) (Scalar b) (Scalar c) in
      SecondOrderEq.discriminant self = Ok (Scalar (disc_scalar a b c))
      /\ SecondOrderEq.roots self
         = Ok (Scalar (root_minus_scalar a b c),
               Scalar (root_plus_scalar a b c)))
  /\ (forall xs ys zs : list F,
      length xs = length ys -> length ys = length zs ->
      let self := SecondOrderEq.__init__ (Array xs) (Array ys) (Array zs) in
      SecondOrderEq.discriminant self = Ok (Array (map3 disc xs ys zs))
      /\ SecondOrderEq.roots self
         = Ok (Array (map3 root_minus xs ys zs),
               Array (map3 root_plus xs ys zs))).
Proof.
  split.
  - intros a b c self. split; reflexivity.
  - intros xs ys zs Hxy Hyz self. split.
    + now apply discriminant_arrays.
    + now apply roots_arrays.
Qed.

(** C7: [get_time_contact_ground()] is the index-2 component of [r2] when
    the index-2 component of [r1] is strictly negative and the index-2
    component of [r1] otherwise, [(r1, r2)] being what [roots()] returns; on
    three-component vectors those components are the two roots of the
    vertical equation. *)
Theorem time_is_selected_from_vertical_roots :
  (forall (self : SecondOrderEq.t F) (r1 r2 : ndvalue F) (x1 x2 : F),
      SecondOrderEq.roots self = Ok (r1, r2) ->
      getitem r1 2 = Ok x1 ->
      getitem r2 2 = Ok x2 ->
      SecondOrderEq.get_time_contact_ground self
      = Ok (if lt x1 zero then x2 else x1))
  /\ (forall a0 a1 a2 b0 b1 b2 c0 c1 c2 : F,
      let self := SecondOrderEq.__init__
                    (arr3 a0 a1 a2) (arr3 b0 b1 b2) (arr3 c0 c1 c2) in
      exists r1 r2 : ndvalue F,
        SecondOrderEq.roots self = Ok (r1, r2)
        /\ getitem r1 2 = Ok (root_minus a2 b2 c2)
        /\ getitem r2 2 = Ok (root_plus a2 b2 c2)
        /\ SecondOrderEq.get_time_contact_ground self
           = Ok (if lt (root_minus a2 b2 c2) zero
                 then root_plus a2 b2 c2 else root_minus a2 b2 c2)).
Proof.
  split.
  - intros self r1 r2 x1 x2 Hroots H1 H2.
    now rewrite (time_of_roots self Hroots H1 H2).
  - intros a0 a1 a2 b0 b1 b2 c0 c1 c2 self.
    exists (Array (map3 root_minus [a0; a1; a2] [b0; b1; b2] [c0; c1; c2])),
           (Array (map3 root_plus [a0; a1; a2] [b0; b1; b2] [c0; c1; c2])).
    split; [ apply roots_arrays; reflexivity | ].
    split; [ reflexivity | ].
    split; [ reflexivity | apply time_vec3 ].
Qed.

(** C9: for an object built from three-component position, velocity,
    collision boundary and gravity, [get_a()] is [0.5 * gravity], [get_b()]
    is the velocity, [get_c()] is [position - collisionBoundary], each as a
    three-component vector, and [get_eq()] returns exactly that triple. *)
Theorem coefficients_of_object :
  forall p0 p1 p2 v0 v1 v2 k0 k1 k2 g0 g1 g2 : F,
    let o := Object.__init__ (vec3 p0 p1 p2) (vec3 v0 v1 v2) (vec3 k0 k1 k2)
               (Some (ArrayLike (NdValue (arr3 g0 g1 g2)))) in
    let a := arr3 (mul half g0) (mul half g1) (mul half g2) in
    let b := arr3 v0 v1 v2 in
    let c := arr3 (sub p0 k0) (sub p1 k1) (sub p2 k2) in
    Object.get_a o = Ok a
    /\ Object.get_b o = b
    /\ Object.get_c o = Ok c
    /\ Object.get_eq o = Ok (a, b, c).
Proof. intros; repeat split. Qed.

(** C4 (amended): [get_time_contact_ground()] returns a scalar time for
    every solver built from three-component vectors; for every solver built
    from scalar coefficients, such as the triple [get_eq_z()] produces, it
    raises [IndexError], because it indexes component 2 of each root. *)
Theorem time_needs_vector_coefficients :
  (forall a0 a1 a2 b0 b1 b2 c0 c1 c2 : F,
      exists t : F,
        SecondOrderEq.get_time_contact_ground
          (SecondOrderEq.__init__
             (arr3 a0 a1 a2) (arr3 b0 b1 b2) (arr3 c0 c1 c2))
        = Ok t)
  /\ (forall a b c : F,
      SecondOrderEq.get_time_contact_ground
        (SecondOrderEq.__init__ (Scalar a) (Scalar b) (Scalar c))
      = Raise IndexError)
  /\ (forall (o : Object.t F) (a b c : F),
      Object.get_eq_z o = Ok (a, b, c) ->
      SecondOrderEq.get_time_contact_ground
        (SecondOrderEq.__init__ (Scalar a) (Scalar b) (Scalar c))
      = Raise IndexError).
Proof.
  split; [ | split ].
  - intros. eexists. apply time_vec3.
  - intros. apply time_scalars.
  - intros. apply time_scalars.
Qed.

End Generic.

(** ** Degenerate equations in binary64 *)

Section Binary64.
Local Open Scope float_scope.

Lemma SFeqb_refl_finite (s : bool) (m : positive) (e : Z) :
  SFeqb (S754_finite s m e) (S754_finite s m e) = true.
Proof.
  unfold SFeqb, SFcompare.
  rewrite Z.compare_refl, Pos.compare_cont_refl. now destruct s.
Qed.

Lemma special_spec (x : float) : special x = SFspecial (Prim2SF x).
Proof.
  unfold special, is_nan, is_infinity.
  rewrite !eqb_spec, abs_spec.
  change (Prim2SF infinity) with (S754_infinity false).
  destruct (Prim2SF x) as [s| s | | s m e]; try reflexivity.
  - now destruct s.
  - now rewrite SFeqb_refl_finite.
Qed.

Lemma SFsqrt_negative (d : spec_float) :
  SFltb d (S754_zero false) = true -> SF64sqrt d = S754_nan.
Proof. destruct d as [s| [|] | | [|] m e]; try discriminate; reflexivity. Qed.

Lemma SFeqb_zero (x : spec_float) :
  SFeqb x (S754_zero false) = true -> exists s, x = S754_zero s.
Proof.
  destruct x as [s| [|] | | [|] m e]; try discriminate; intros _; eauto.
Qed.

Lemma SFdiv_by_zero (x : spec_float) (s : bool) :
  SFspecial (SF64div x (S754_zero s)) = true.
Proof. destruct x; reflexivity. Qed.

Lemma SFmul_special_r (x y : spec_float) :
  SFspecial y = true -> SFspecial (SF64mul x y) = true.
Proof. destruct x, y; try discriminate; reflexivity. Qed.

Lemma SFadd_special_l (x y : spec_float) :
  SFspecial x = true -> SFspecial (SF64add x y) = true.
Proof.
  destruct x as [| [|] | |], y as [| [|] | |]; try discriminate; reflexivity.
Qed.

Lemma mul_special_r (x y : float) :
  special y = true -> special (x * y) = true.
Proof. rewrite !special_spec, mul_spec. apply SFmul_special_r. Qed.

Lemma add_special_l (x y : float) :
  special x = true -> special (x + y) = true.
Proof. rewrite !special_spec, add_spec. apply SFadd_special_l. Qed.

(** Both roots of a degenerate axis are NaN or infinite. *)
Lemma degenerate_roots (a b c : float) :
  degenerate a b c = true ->
  special (root_minus a b c) = true /\ special (root_plus a b c) = true.
Proof.
  unfold degenerate, root_minus, root_plus.
  cbn [div sub add neg sqrt mul two Number_float].
  generalize (disc a b c); intros d Hdeg.
  rewrite !special_spec, !div_spec, sub_spec, add_spec, opp_spec, sqrt_spec,
    mul_spec.
  apply orb_true_iff in Hdeg as [Hneg | Hzero].
  - rewrite ltb_spec in Hneg. rewrite (SFsqrt_negative _ Hneg).
    split; destruct (SFopp (Prim2SF b)); reflexivity.
  - rewrite eqb_spec in Hzero. apply SFeqb_zero in Hzero as [s Hs].
    rewrite Hs.
    change (Prim2SF 2) with (S754_finite false 4503599627370496 (-51)).
    split; apply SFdiv_by_zero.
Qed.

Lemma select_special (r1 r2 : float) :
  special r1 = true -> special r2 = true -> special (select r1 r2) = true.
Proof. intros H1 H2. unfold select. now destruct (lt r1 zero). Qed.

Lemma motion_special (a b c t : float) :
  special t = true -> special (motion a b c t) = true.
Proof.
  intros Ht. unfold motion. cbn [add mul pow2 Number_float].
  apply add_special_l, add_special_l, mul_special_r, mul_special_r, Ht.
Qed.

(** With a negative discriminant [d] or a zero leading coefficient, both
    values of the quadratic formula are NaN or infinite. *)
Lemma degenerate_formula (a b d : float) :
  (d <? 0) || (a =? 0) = true ->
  special ((- b - PrimFloat.sqrt d) / (2 * a)) = true
  /\ special ((- b + PrimFloat.sqrt d) / (2 * a)) = true.
Proof.
  intros Hdeg.
  rewrite !special_spec, !div_spec, sub_spec, add_spec, opp_spec, sqrt_spec,
    mul_spec.
  apply orb_true_iff in Hdeg as [Hneg | Hzero].
  - rewrite ltb_spec in Hneg. rewrite (SFsqrt_negative _ Hneg).
    split; destruct (SFopp (Prim2SF b)); reflexivity.
  - rewrite eqb_spec in Hzero. apply SFeqb_zero in Hzero as [s Hs].
    rewrite Hs.
    change (Prim2SF 2) with (S754_finite false 4503599627370496 (-51)).
    split; apply SFdiv_by_zero.
Qed.

(** C5 (amended), in binary64.
    - On three-component vector coefficients, [discriminant()], [roots()],
      [get_time_contact_ground()] and [get_distance_at_contact_ground()]
      all return a value (none raises), whatever the coefficients.  On
      every axis with a negative discriminant or a zero leading coefficient
      both roots are NaN or infinite; when that axis is the vertical one,
      so are the contact time and every component of the position at
      contact.
    - On scalar coefficients, and whatever C's [pow] returns for [b**2],
      [discriminant()] and [roots()] return a value, and both roots are NaN
      or infinite when the discriminant is negative or the leading
      coefficient is zero; [get_time_contact_ground()] and
      [get_distance_at_contact_ground()] raise [IndexError].
    - On arrays of a common length below three, [discriminant()] and
      [roots()] return a value, and [get_time_contact_ground()] and
      [get_distance_at_contact_ground()] raise [IndexError]. *)
Theorem degenerate_axes_give_nan_or_inf :
  (forall a0 a1 a2 b0 b1 b2 c0 c1 c2 : float,
      let self := SecondOrderEq.__init__
                    (arr3 a0 a1 a2) (arr3 b0 b1 b2) (arr3 c0 c1 c2) in
      exists r10 r11 r12 r20 r21 r22 t p0 p1 p2 : float,
        SecondOrderEq.discriminant self
        = Ok (arr3 (disc a0 b0 c0) (disc a1 b1 c1) (disc a2 b2 c2))
        /\ SecondOrderEq.roots self = Ok (arr3 r10 r11 r12, arr3 r20 r21 r22)
        /\ SecondOrderEq.get_time_contact_ground self = Ok t
        /\ SecondOrderEq.get_distance_at_contact_ground self
           = Ok (arr3 p0 p1 p2)
        /\ (degenerate a0 b0 c0 = true ->
            special r10 = true /\ special r20 = true)
        /\ (degenerate a1 b1 c1 = true ->
            special r11 = true /\ special r21 = true)
        /\ (degenerate a2 b2 c2 = true ->
            special r12 = true /\ special r22 = true
            /\ special t = true
            /\ special p0 = true /\ special p1 = true /\ special p2 = true))
  /\ (forall (pw : float -> float) (a b c : float),
      let self := SecondOrderEq.__init__ (Scalar a) (Scalar b) (Scalar c) in
      let d := pw b - 4 * a * c in
      exists r1 r2 : float,
        SecondOrderEq.discriminant (num := binary64 pw) self = Ok (Scalar d)
        /\ SecondOrderEq.roots (num := binary64 pw) self
           = Ok (Scalar r1, Scalar r2)
        /\ ((d <? 0) || (a =? 0) = true ->
            special r1 = true /\ special r2 = true)
        /\ SecondOrderEq.get_time_contact_ground (num := binary64 pw) self
           = Raise IndexError
        /\ SecondOrderEq.get_distance_at_contact_ground
             (num := binary64 pw) self
           = Raise IndexError)
  /\ (forall xs ys zs : list float,
      length xs = length ys -> length ys = length zs -> length xs < 3 ->
      let self := SecondOrderEq.__init__ (Array xs) (Array ys) (Array zs) in
      (exists d r1 r2 : list float,
          SecondOrderEq.discriminant self = Ok (Array d)
          /\ SecondOrderEq.roots self = Ok (Array r1, Array r2))
      /\ SecondOrderEq.get_time_contact_ground self = Raise IndexError
      /\ SecondOrderEq.get_distance_at_contact_ground self
         = Raise IndexError).
Proof.
  split; [ | split ].
  - intros a0 a1 a2 b0 b1 b2 c0 c1 c2 self.
    set (t := select (root_minus a2 b2 c2) (root_plus a2 b2 c2)).
    exists (root_minus a0 b0 c0), (root_minus a1 b1 c1),
           (root_minus a2 b2 c2),
           (root_plus a0 b0 c0), (root_plus a1 b1 c1), (root_plus a2 b2 c2),
           t, (motion a0 b0 c0 t), (motion a1 b1 c1 t), (motion a2 b2 c2 t).
    split; [ apply (discriminant_arrays
                      [a0; a1; a2] [b0; b1; b2] [c0; c1; c2]);
             reflexivity | ].
    split; [ apply (roots_arrays [a0; a1; a2] [b0; b1; b2] [c0; c1; c2]);
             reflexivity | ].
    split; [ apply time_vec3 | ].
    split; [ apply distance_vec3 | ].
    split; [ apply degenerate_roots | ].
    split; [ apply degenerate_roots | ].
    intros Hdeg. destruct (degenerate_roots _ _ _ Hdeg) as [H1 H2].
    assert (Ht : special t = true) by now apply select_special.
    repeat split; auto using motion_special.
  - intros pw a b c self d.
    exists ((- b - PrimFloat.sqrt d) / (2 * a)),
           ((- b + PrimFloat.sqrt d) / (2 * a)).
    split; [ reflexivity | ].
    split; [ reflexivity | ].
    split; [ apply degenerate_formula | ].
    split; [ apply time_scalars | apply distance_scalars ].
  - intros xs ys zs Hxy Hyz Hshort self. split; [ | split ].
    + exists (map3 disc xs ys zs), (map3 root_minus xs ys zs),
             (map3 root_plus xs ys zs).
      split; [ now apply discriminant_arrays | now apply roots_arrays ].
    + now apply time_short_arrays.
    + now apply distance_short_arrays.
Qed.

(** C5 (amended), at an instance: no vertical acceleration, height 10, no
    vertical velocity (scenario 3 of the specification). *)
Lemma degenerate_axes_give_nan_or_inf_at_scenario_3 :
  exists r10 r11 r12 r20 r21 r22 t p0 p1 p2 : float,
    SecondOrderEq.roots
      (SecondOrderEq.__init__ (arr3 0 0 0) (arr3 0 0 0) (arr3 0 0 10))
    = Ok (arr3 r10 r11 r12, arr3 r20 r21 r22)
    /\ SecondOrderEq.get_time_contact_ground
         (SecondOrderEq.__init__ (arr3 0 0 0) (arr3 0 0 0) (arr3 0 0 10))
       = Ok t
    /\ SecondOrderEq.get_distance_at_contact_ground
         (SecondOrderEq.__init__ (arr3 0 0 0) (arr3 0 0 0) (arr3 0 0 10))
       = Ok (arr3 p0 p1 p2)
    /\ special r12 = true /\ special r22 = true /\ special t = true
    /\ special p0 = true /\ special p1 = true /\ special p2 = true.
Proof.
  destruct (proj1 degenerate_axes_give_nan_or_inf 0 0 0 0 0 0 0 0 10)
    as (r10 & r11 & r12 & r20 & r21 & r22 & t & p0 & p1 & p2
        & _ & Hroots & Htime & Hdist & _ & _ & Hz).
  exists r10, r11, r12, r20, r21, r22, t, p0, p1, p2.
  destruct (Hz eq_refl) as (H1 & H2 & H3 & H4 & H5 & H6).
  repeat split; assumption.
Defined.

End Binary64.

(** ** The generic theorems at binary64 inputs *)

Section Instances.
Local Open Scope float_scope.

(** Scenario 1 of the specification: dropped from height 10 under the
    default gravity, contact after about 1.4278 s. *)
#[warnings="-inexact-float"] Example scenario_1 :
  exists a b c : ndvalue float,
    Object.get_eq
      (Object.__init__ (vec3 0 0 10) (vec3 0 0 0) (vec3 0 0 0) None)
    = Ok (a, b, c)
    /\ exists t : float,
        SecondOrderEq.get_time_contact_ground (SecondOrderEq.__init__ a b c)
        = Ok t
        /\ (1.4278 <? t) = true /\ (t <? 1.4279) = true.
Proof. do 3 eexists. split; [ reflexivity | ]. eexists. repeat split. Qed.

(** Scenario 2: thrown upwards from the ground at 5 m/s, back on the ground
    after about 1.0194 s.  The two roots are 1.0194 and -0, and the later
    one is returned. *)
#[warnings="-inexact-float"] Example scenario_2 :
  exists a b c : ndvalue float,
    Object.get_eq
      (Object.__init__ (vec3 0 0 0) (vec3 0 0 5) (vec3 0 0 0) None)
    = Ok (a, b, c)
    /\ exists t : float,
        SecondOrderEq.roots (SecondOrderEq.__init__ a b c)
        = Ok (arr3 nan nan t, arr3 nan nan (-0))
        /\ SecondOrderEq.get_time_contact_ground
             (SecondOrderEq.__init__ a b c)
           = Ok t
        /\ (1.0193 <? t) = true /\ (t <? 1.0194) = true.
Proof. do 3 eexists. split; [ reflexivity | ]. eexists. repeat split. Qed.

(** Scenario 3: no gravity, height 10, at rest.  Nothing raises; roots,
    contact time and position at contact are NaN. *)
Example scenario_3 :
  let self := SecondOrderEq.__init__
                (arr3 0 0 0) (arr3 0 0 0) (arr3 0 0 10) in
  Object.get_eq
    (Object.__init__ (vec3 0 0 10) (vec3 0 0 0) (vec3 0 0 0)
       (Some (ArrayLike (NdValue (arr3 0 0 0)))))
  = Ok (SecondOrderEq.a self, SecondOrderEq.b self, SecondOrderEq.c self)
  /\ SecondOrderEq.roots self = Ok (arr3 nan nan nan, arr3 nan nan nan)
  /\ SecondOrderEq.get_time_contact_ground self = Ok nan
  /\ SecondOrderEq.get_distance_at_contact_ground self
     = Ok (arr3 nan nan nan).
Proof. repeat split. Qed.

(** Arrays of different lengths cannot be combined. *)
Example shapes_must_agree :
  Object.get_c (Object.__init__ (vec3 0 0 10) (vec3 0 0 0)
                  (PyList [0; 0]) None)
  = Raise ValueError.
Proof. reflexivity. Qed.

(** C8, at an instance: free fall from height 10 under gravity
    [(0, 0, -10)]. *)
Lemma discriminant_and_roots_follow_the_formula_at_free_fall :
  let self := SecondOrderEq.__init__
                (Array [0; 0; -5]) (Array [0; 0; 0]) (Array [0; 0; 10]) in
  SecondOrderEq.discriminant self
  = Ok (Array (map3 disc [0; 0; -5] [0; 0; 0] [0; 0; 10]))
  /\ SecondOrderEq.roots self
     = Ok (Array (map3 root_minus [0; 0; -5] [0; 0; 0] [0; 0; 10]),
           Array (map3 root_plus [0; 0; -5] [0; 0; 0] [0; 0; 10])).
Proof.
  apply (proj2 (discriminant_and_roots_follow_the_formula (F := float))
           [0; 0; -5] [0; 0; 0] [0; 0; 10]); reflexivity.
Defined.

(** C7, at an instance: [a = (0, 0, 1)], [b = (0, 0, 1)], [c = (0, 0, -2)],
    whose vertical roots are [r1 = -2] and [r2 = 1]; the first is negative
    and the second is returned. *)
Lemma time_is_selected_from_vertical_roots_at_negative_first_root :
  SecondOrderEq.get_time_contact_ground
    (SecondOrderEq.__init__ (arr3 0 0 1) (arr3 0 0 1) (arr3 0 0 (-2)))
  = Ok (if lt (-2) zero then 1 else -2).
Proof.
  apply (proj1 (time_is_selected_from_vertical_roots (F := float))
           (SecondOrderEq.__init__ (arr3 0 0 1) (arr3 0 0 1) (arr3 0 0 (-2)))
           (arr3 nan nan (-2)) (arr3 nan nan 1));
    reflexivity.
Defined.

(** C4 (amended), at an instance: the vertical equation of an object
    dropped from height 10 under the default gravity. *)
Lemma time_needs_vector_coefficients_at_default_gravity :
  SecondOrderEq.get_time_contact_ground
    (SecondOrderEq.__init__
       (Scalar (mul half minus_9_81)) (Scalar 0) (Scalar 10))
  = Raise IndexError.
Proof.
  apply (proj2 (proj2 (time_needs_vector_coefficients (F := float)))
           (Object.__init__ (vec3 0 0 10) (vec3 0 0 0) (vec3 0 0 0) None)).
  reflexivity.
Defined.

End Instances.

(** ** What the constructor does with its arguments *)

(** C10: the constructor stores [np.array] of the position, velocity and
    collision-boundary arguments and stores the gravity argument as it is.
    With the default gravity every accessor returns a value and [get_a()] is
    [(0, 0, -4.905)].  A gravity argument that a Python float cannot
    multiply (a list, [None]) makes [get_a()] and [get_eq_z()] raise, and one
    that cannot be indexed (a numpy scalar) makes [get_eq_z()] raise,
    although the object was constructed. *)
#[warnings="-inexact-float"] Theorem gravity_is_stored_unconverted :
  (forall (F : Type) (num : Number F) (p v k : array_like F) (g : pyobj F),
      let o := Object.__init__ p v k (Some g) in
      Object.pos o = np_array p
      /\ Object.vel o = np_array v
      /\ Object.collision_condition o = np_array k
      /\ Object.g o = g)
  /\ (forall p0 p1 p2 v0 v1 v2 k0 k1 k2 : float,
      let o := Object.__init__ (vec3 p0 p1 p2) (vec3 v0 v1 v2)
                 (vec3 k0 k1 k2) None in
      let c := arr3 (p0 - k0) (p1 - k1) (p2 - k2) in
      Object.get_a o = Ok (arr3 0 0 (-4.905))
      /\ Object.get_b o = arr3 v0 v1 v2
      /\ Object.get_c o = Ok c
      /\ Object.get_eq o = Ok (arr3 0 0 (-4.905), arr3 v0 v1 v2, c)
      /\ Object.get_eq_z o = Ok (-4.905, v2, p2 - k2))%float
  /\ (forall (F : Type) (num : Number F) (p v k : array_like F) (g : pyobj F),
      (g = PyNone \/ exists xs, g = ArrayLike (PyList xs)) ->
      let o := Object.__init__ p v k (Some g) in
      Object.get_a o = Raise TypeError
      /\ Object.get_eq_z o = Raise TypeError)
  /\ (forall (F : Type) (num : Number F) (p v k : array_like F) (x : F),
      let o := Object.__init__ p v k
                 (Some (ArrayLike (NdValue (Scalar x)))) in
      Object.get_a o = Ok (Scalar (mul half x))
      /\ Object.get_eq_z o = Raise IndexError).
Proof.
  split; [ | split; [ | split ] ].
  - intros F num p v k g o. repeat split.
  - intros p0 p1 p2 v0 v1 v2 k0 k1 k2 o c. repeat split.
  - intros F num p v k g [-> | [xs ->]] o; split; reflexivity.
  - intros F num p v k x o. split; reflexivity.
Qed.

(** C10, at an instance: a Python list as gravity. *)
Lemma gravity_is_stored_unconverted_at_a_list :
  (let o := Object.__init__ (vec3 0 0 10) (vec3 0 0 0) (vec3 0 0 0)
              (Some (ArrayLike (PyList [0; 0; -10]))) in
   Object.get_a o = Raise TypeError
   /\ Object.get_eq_z o = Raise TypeError)%float.
Proof.
  apply (proj1 (proj2 (proj2 gravity_is_stored_unconverted))).
  right. now exists [0; 0; -10]%float.
Defined.

(** ** Inputs on which the code departs from the specification *)

Section Departures.
Local Open Scope float_scope.

(** C1 fails: with gravity [(0, 0, -10)], height 10 and the collision
    boundary at height 5, the vertical equation has real roots and contact
    is at [t = 1]; the position at contact has vertical component 0, not the
    boundary's 5. *)
Lemma position_at_contact_is_not_the_boundary :
  let o := Object.__init__ (vec3 0 0 10) (vec3 0 0 0) (vec3 0 0 5)
             (Some (ArrayLike (NdValue (arr3 0 0 (-10))))) in
  let self := SecondOrderEq.__init__
                (arr3 0 0 (-5)) (arr3 0 0 0) (arr3 0 0 5) in
  Object.get_eq o = Ok (SecondOrderEq.a self, SecondOrderEq.b self,
                        SecondOrderEq.c self)
  /\ SecondOrderEq.discriminant self = Ok (arr3 0 0 100)
  /\ SecondOrderEq.get_time_contact_ground self = Ok 1
  /\ SecondOrderEq.get_distance_at_contact_ground self = Ok (arr3 0 0 0)
  /\ getitem (Object.collision_condition o) 2 = Ok 5
  /\ (0 =? 5) = false.
Proof. repeat split. Qed.

(** C2 fails: for [a = (0, 0, -1)], [b = (0, 0, 3)], [c = (0, 0, -2)] the
    vertical equation [-t^2 + 3t - 2 = 0] has the non-negative roots 1 and
    2; the code returns 2, and 1 is an earlier non-negative root. *)
Lemma time_is_not_the_earliest_root :
  let self := SecondOrderEq.__init__
                (arr3 0 0 (-1)) (arr3 0 0 3) (arr3 0 0 (-2)) in
  SecondOrderEq.get_time_contact_ground self = Ok 2
  /\ (motion (-1) 3 (-2) 1 =? 0) = true
  /\ (0 <=? 1) = true
  /\ (1 <? 2) = true.
Proof. repeat split. Qed.


(** C4 fails: the scalar triple [get_eq_z()] produces for an object dropped
    from height 10 under gravity [(0, 0, -10)] makes
    [get_time_contact_ground()] raise [IndexError]. *)
Lemma time_raises_on_vertical_equation :
  let o := Object.__init__ (vec3 0 0 10) (vec3 0 0 0) (vec3 0 0 0)
             (Some (ArrayLike (NdValue (arr3 0 0 (-10))))) in
  Object.get_eq_z o = Ok (-5, 0, 10)
  /\ SecondOrderEq.get_time_contact_ground
       (SecondOrderEq.__init__ (Scalar (-5)) (Scalar 0) (Scalar 10))
     = Raise IndexError.
Proof. repeat split. Qed.

(** C5 fails: the vertical equation of scenario 3 (no gravity, height 10,
    at rest) has a zero leading coefficient; on its scalar coefficients
    [discriminant()] and [roots()] return, with NaN roots, but
    [get_time_contact_ground()] and [get_distance_at_contact_ground()]
    raise [IndexError]. *)
Lemma degenerate_scalars_raise :
  let o := Object.__init__ (vec3 0 0 10) (vec3 0 0 0) (vec3 0 0 0)
             (Some (ArrayLike (NdValue (arr3 0 0 0)))) in
  let self := SecondOrderEq.__init__ (Scalar 0) (Scalar 0) (Scalar 10) in
  Object.get_eq_z o = Ok (0, 0, 10)
  /\ (0 =? 0) = true
  /\ SecondOrderEq.discriminant self = Ok (Scalar 0)
  /\ SecondOrderEq.roots self = Ok (Scalar nan, Scalar nan)
  /\ SecondOrderEq.get_time_contact_ground self = Raise IndexError
  /\ SecondOrderEq.get_distance_at_contact_ground self = Raise IndexError.
Proof. repeat split. Qed.

(** C6 fails in binary64: with vertical gravity [-2^-599 < 0], vertical
    velocity [-2^-600] and height [2^-600] above a boundary at 0, both
    [b**2] and [4*a*c] underflow to zero, the discriminant is 0 and the
    returned time is [-0.5]. *)
Lemma time_is_negative_after_underflow :
  let o := Object.__init__ (vec3 0 0 0x1p-600) (vec3 0 0 (-0x1p-600))
             (vec3 0 0 0)
             (Some (ArrayLike (NdValue (arr3 0 0 (-0x1p-599))))) in
  let self := SecondOrderEq.__init__
                (arr3 0 0 (-0x1p-600)) (arr3 0 0 (-0x1p-600))
                (arr3 0 0 0x1p-600) in
  (-0x1p-599 <? 0) = true
  /\ (0 <? 0x1p-600) = true
  /\ Object.get_eq o = Ok (SecondOrderEq.a self, SecondOrderEq.b self,
                           SecondOrderEq.c self)
  /\ SecondOrderEq.discriminant self = Ok (arr3 0 0 0)
  /\ SecondOrderEq.get_time_contact_ground self = Ok (-0.5)
  /\ (0 <=? -0.5) = false.
Proof. repeat split. Qed.

End Departures.

Section Exact.
Local Open Scope R_scope.

Lemma R_disc (a b c : R) : disc a b c = b * b - 4 * a * c.
Proof. reflexivity. Qed.

Lemma R_root_minus (a b c : R) :
  root_minus a b c = (- b - R_sqrt.sqrt (disc a b c)) / (2 * a).
Proof. reflexivity. Qed.

Lemma R_root_plus (a b c : R) :
  root_plus a b c = (- b + R_sqrt.sqrt (disc a b c)) / (2 * a).
Proof. reflexivity. Qed.

Lemma R_motion (a b c t : R) : motion a b c t = a * (t * t) + b * t + c.
Proof. reflexivity. Qed.

Lemma R_select (r1 r2 : R) :
  (r1 < 0 -> select r1 r2 = r2) /\ (0 <= r1 -> select r1 r2 = r1).
Proof.
  unfold select; cbn [lt zero Number_R]; unfold Rltb.
  destruct (Rlt_dec r1 0); split; intros; auto; lra.
Qed.

(** The two values of the quadratic formula, characterised without division. *)
Lemma formula_roots (a b c : R) :
  a <> 0 -> 0 <= disc a b c ->
  exists s : R,
    0 <= s /\ s * s = disc a b c
    /\ 2 * a * root_minus a b c = - b - s
    /\ 2 * a * root_plus a b c = - b + s.
Proof.
  intros Ha Hd. exists (R_sqrt.sqrt (disc a b c)).
  split; [ apply sqrt_pos | ].
  split; [ now apply sqrt_sqrt | ].
  rewrite R_root_minus, R_root_plus. split; field; assumption.
Qed.

Lemma formula_roots_are_roots (a b c : R) :
  a <> 0 -> 0 <= disc a b c ->
  is_root a b c (root_minus a b c) /\ is_root a b c (root_plus a b c).
Proof.
  intros Ha Hd. destruct (formula_roots Ha Hd) as (s & Hs & Hss & H1 & H2).
  rewrite R_disc in Hss. unfold is_root. rewrite !R_motion.
  split; apply Rmult_eq_reg_l with (4 * a); try lra; nra.
Qed.

Lemma root_is_formula_root (a b c u : R) :
  a <> 0 -> is_root a b c u ->
  0 <= disc a b c /\ (u = root_minus a b c \/ u = root_plus a b c).
Proof.
  intros Ha Hu. unfold is_root in Hu. rewrite R_motion in Hu.
  assert (Hd : disc a b c = (2 * a * u + b) * (2 * a * u + b))
    by (rewrite R_disc; nra).
  assert (Hd0 : 0 <= disc a b c) by (rewrite Hd; apply Rle_0_sqr).
  split; [ assumption | ].
  destruct (formula_roots Ha Hd0) as (s & Hs & Hss & H1 & H2).
  assert (Hcases : 2 * a * u + b = s \/ 2 * a * u + b = - s).
  { assert (H : (2 * a * u + b - s) * (2 * a * u + b + s) = 0) by nra.
    apply Rmult_integral in H. destruct H; [left | right]; lra. }
  destruct Hcases as [H | H]; [right | left];
    apply Rmult_eq_reg_l with (2 * a); try lra; intros H0; apply Ha; lra.
Qed.

Lemma formula_roots_order (a b c : R) :
  a <> 0 -> 0 <= disc a b c ->
  (0 < a -> root_minus a b c <= root_plus a b c)
  /\ (a < 0 -> root_plus a b c <= root_minus a b c).
Proof.
  intros Ha Hd. destruct (formula_roots Ha Hd) as (s & Hs & Hss & H1 & H2).
  split; intros Hsign; nra.
Qed.

Lemma select_cases (r1 r2 : R) : select r1 r2 = r1 \/ select r1 r2 = r2.
Proof. unfold select. destruct (lt r1 zero); auto. Qed.

(** C1 (amended): in exact arithmetic, for every object with gravity
    [(0, 0, -g)], [g > 0], whose vertical equation has a real root, the
    vertical component of [get_distance_at_contact_ground()] is 0: the
    value is the position relative to the collision boundary, so it equals
    the boundary's vertical component only when that component is 0. *)
Theorem position_at_contact_is_zero_offset :
  forall p0 p1 p2 v0 v1 v2 k0 k1 k2 g : R,
    0 < g ->
    0 <= v2 * v2 - 4 * (1 / 2 * - g) * (p2 - k2) ->
    let o := Object.__init__ (vec3 p0 p1 p2) (vec3 v0 v1 v2) (vec3 k0 k1 k2)
               (Some (ArrayLike (NdValue (arr3 0 0 (- g))))) in
    exists (a b c : ndvalue R) (x y : R),
      Object.get_eq o = Ok (a, b, c)
      /\ SecondOrderEq.get_distance_at_contact_ground
           (SecondOrderEq.__init__ a b c)
         = Ok (arr3 x y 0).
Proof.
  intros p0 p1 p2 v0 v1 v2 k0 k1 k2 g Hg Hd o.
  eexists _, _, _, _, _. split; [ apply get_eq_vec3 | ].
  rewrite distance_vec3. cbv zeta. do 2 f_equal.
  cbn [mul sub half Number_R].
  assert (Ha : 1 / 2 * - g <> 0) by lra.
  destruct (formula_roots_are_roots (a := 1 / 2 * - g) (b := v2)
              (c := p2 - k2) Ha Hd) as [H1 H2].
  unfold arr3. do 3 f_equal.
  destruct (select_cases (root_minus (1 / 2 * - g) v2 (p2 - k2))
              (root_plus (1 / 2 * - g) v2 (p2 - k2))) as [-> | ->];
    assumption.
Qed.

Lemma position_at_contact_is_zero_offset_at_boundary_5 :
  let o := Object.__init__ (vec3 0 0 10) (vec3 0 0 0) (vec3 0 0 5)
             (Some (ArrayLike (NdValue (arr3 0 0 (- 10))))) in
  exists (a b c : ndvalue R) (x y : R),
    Object.get_eq o = Ok (a, b, c)
    /\ SecondOrderEq.get_distance_at_contact_ground
         (SecondOrderEq.__init__ a b c)
       = Ok (arr3 x y 0).
Proof.
  apply (@position_at_contact_is_zero_offset 0 0 10 0 0 0 0 0 5 10); lra.
Defined.

(** C6 (amended): in exact arithmetic, for every object with vertical
    gravity [g < 0] and initial height strictly above the collision
    boundary, [get_time_contact_ground()] on the derived coefficients
    returns a time [t >= 0]. *)
Theorem time_is_nonnegative_in_exact_arithmetic :
  forall p0 p1 p2 v0 v1 v2 k0 k1 k2 g0 g1 g2 : R,
    g2 < 0 ->
    k2 < p2 ->
    let o := Object.__init__ (vec3 p0 p1 p2) (vec3 v0 v1 v2) (vec3 k0 k1 k2)
               (Some (ArrayLike (NdValue (arr3 g0 g1 g2)))) in
    exists (a b c : ndvalue R) (t : R),
      Object.get_eq o = Ok (a, b, c)
      /\ SecondOrderEq.get_time_contact_ground (SecondOrderEq.__init__ a b c)
         = Ok t
      /\ 0 <= t.
Proof.
  intros p0 p1 p2 v0 v1 v2 k0 k1 k2 g0 g1 g2 Hg Hp o.
  eexists _, _, _, _. split; [ apply get_eq_vec3 | ].
  split; [ apply time_vec3 | ].
  cbn [mul sub half Number_R].
  set (a := 1 / 2 * g2). set (c := p2 - k2).
  assert (Ha : a < 0) by (unfold a; lra).
  assert (Hc : 0 < c) by (unfold c; lra).
  assert (Hd : 0 <= disc a v2 c) by (rewrite R_disc; nra).
  destruct (@formula_roots a v2 c ltac:(lra) Hd) as (s & Hs & Hss & H1 & _).
  rewrite R_disc in Hss.
  assert (Hac : a * c < 0) by nra.
  assert (Hsv : - v2 < s) by nra.
  assert (Hr : 0 <= root_minus a v2 c) by nra.
  now rewrite (proj2 (R_select _ (root_plus a v2 c)) Hr).
Qed.

Lemma time_is_nonnegative_in_exact_arithmetic_at_drop_from_10 :
  let o := Object.__init__ (vec3 0 0 10) (vec3 0 0 0) (vec3 0 0 0)
             (Some (ArrayLike (NdValue (arr3 0 0 (- 10))))) in
  exists (a b c : ndvalue R) (t : R),
    Object.get_eq o = Ok (a, b, c)
    /\ SecondOrderEq.get_time_contact_ground (SecondOrderEq.__init__ a b c)
       = Ok t
    /\ 0 <= t.
Proof.
  apply (@time_is_nonnegative_in_exact_arithmetic
           0 0 10 0 0 0 0 0 0 0 0 (- 10)); lra.
Defined.

(** C2 (amended): in exact arithmetic, for every vector coefficient triple
    whose vertical coefficient [a] is not zero and whose vertical equation
    has a non-negative real root, [get_time_contact_ground()] returns a
    non-negative root of that equation.  When [a > 0] it is the smallest
    non-negative root; when [a < 0] it is the largest root. *)
Theorem time_is_a_nonnegative_root :
  forall a0 a1 a2 b0 b1 b2 c0 c1 c2 : R,
    a2 <> 0 ->
    (exists u : R, 0 <= u /\ is_root a2 b2 c2 u) ->
    exists t : R,
      SecondOrderEq.get_time_contact_ground
        (SecondOrderEq.__init__
           (arr3 a0 a1 a2) (arr3 b0 b1 b2) (arr3 c0 c1 c2))
      = Ok t
      /\ 0 <= t
      /\ is_root a2 b2 c2 t
      /\ (0 < a2 -> forall u : R, 0 <= u -> is_root a2 b2 c2 u -> t <= u)
      /\ (a2 < 0 -> forall u : R, is_root a2 b2 c2 u -> u <= t).
Proof.
  intros a0 a1 a2 b0 b1 b2 c0 c1 c2 Ha (u0 & Hu0 & Hroot0).
  eexists. split; [ apply time_vec3 | ].
  destruct (root_is_formula_root Ha Hroot0) as [Hd Hu0'].
  destruct (formula_roots_are_roots Ha Hd) as [Hr1 Hr2].
  destruct (formula_roots_order Ha Hd) as [Hpos Hneg].
  set (r1 := root_minus a2 b2 c2) in *. set (r2 := root_plus a2 b2 c2) in *.
  destruct (R_select r1 r2) as [Hsel_neg Hsel_pos].
  assert (Hall : forall u, is_root a2 b2 c2 u -> u = r1 \/ u = r2)
    by (intros u Hu; now apply root_is_formula_root).
  destruct (Rlt_dec r1 0) as [Hr1neg | Hr1pos].
  - (* the first root is negative: the second is selected *)
    rewrite (Hsel_neg Hr1neg).
    assert (Hr2pos : 0 <= r2) by (destruct Hu0'; lra).
    repeat split; try assumption.
    + intros _ u Hu Hru. destruct (Hall u Hru); lra.
    + intros Ha2 u Hru. specialize (Hneg Ha2). lra.
  - (* the first root is non-negative: it is selected *)
    apply Rnot_lt_le in Hr1pos. rewrite (Hsel_pos Hr1pos).
    repeat split; try assumption.
    + intros Ha2 u Hu Hru. specialize (Hpos Ha2).
      destruct (Hall u Hru); lra.
    + intros Ha2 u Hru. specialize (Hneg Ha2).
      destruct (Hall u Hru); lra.
Qed.

Lemma time_is_a_nonnegative_root_at_thrown_upwards :
  exists t : R,
    SecondOrderEq.get_time_contact_ground
      (SecondOrderEq.__init__
         (arr3 0 0 (- 1)) (arr3 0 0 3) (arr3 0 0 (- 2)))
    = Ok t
    /\ 0 <= t
    /\ is_root (- 1) 3 (- 2) t
    /\ (0 < - 1 -> forall u : R, 0 <= u -> is_root (- 1) 3 (- 2) u -> t <= u)
    /\ (- 1 < 0 -> forall u : R, is_root (- 1) 3 (- 2) u -> u <= t).
Proof.
  apply (@time_is_a_nonnegative_root 0 0 (- 1) 0 0 3 0 0 (- 2)).
  - lra.
  - exists 1. split; [ lra | ]. unfold is_root. rewrite R_motion. lra.
Defined.




End Exact.

(** ** Further properties, for any arithmetic *)

Section Shapes.
Context {F : Type} {num : Number F}.

Lemma broadcast_shapes (op : F -> F -> F) (xs ys : list F) :
  (length xs <> length ys /\ length xs <> 1 /\ length ys <> 1 ->
   broadcast op (Array xs) (Array ys) = Raise ValueError)
  /\ (length xs = length ys \/ length xs = 1 \/ length ys = 1 ->
      exists rs : list F,
        broadcast op (Array xs) (Array ys) = Ok (Array rs)
        /\ length rs = if Nat.eqb (length xs) 1 then length ys else length xs).
Proof.
  split.
  - intros (Hne & Hx & Hy).
    destruct xs as [|x [|x' xs']], ys as [|y [|y' ys']];
      simpl in *; try congruence.
    destruct (Nat.eqb_spec (length xs') (length ys')); congruence.
  - intros Hshape.
    destruct xs as [|x [|x' xs']], ys as [|y [|y' ys']]; simpl in *;
      try (eexists; split;
           [ reflexivity | simpl; rewrite ?length_map; reflexivity ]);
      try (exfalso; destruct Hshape as [H | [H | H]]; discriminate H).
    assert (Hlen : length xs' = length ys')
      by (destruct Hshape as [H | [H | H]]; congruence).
    rewrite Hlen, Nat.eqb_refl. eexists. split; [ reflexivity | ].
    simpl. rewrite map2_length by assumption. congruence.
Qed.

(** X1: [get_c()] raises [ValueError] exactly when the position and the
    collision boundary have different lengths and neither has length one;
    otherwise it returns an array as long as the longer of the two shapes
    that numpy broadcasts. *)
Theorem get_c_needs_matching_shapes :
  forall (p k : list F) (v : array_like F) (g : option (pyobj F)),
    let o := Object.__init__ (PyList p) v (PyList k) g in
    (Object.get_c o = Raise ValueError
     <-> length p <> length k /\ length p <> 1 /\ length k <> 1)
    /\ (length p = length k \/ length p = 1 \/ length k = 1 ->
        exists rs : list F,
          Object.get_c o = Ok (Array rs)
          /\ length rs = if Nat.eqb (length p) 1 then length k else length p).
Proof.
  intros p k v g o.
  change (Object.get_c o) with (broadcast sub (Array p) (Array k)).
  destruct (broadcast_shapes sub p k) as [Hbad Hgood].
  split; [ split | ]; [ | exact Hbad | exact Hgood ].
  intros Hraise.
  assert (Hok : length p = length k \/ length p = 1 \/ length k = 1 -> False).
  { intros Hshape. destruct (Hgood Hshape) as (rs & Hrs & _).
    rewrite Hrs in Hraise. discriminate. }
  repeat split; intros H; apply Hok; auto.
Qed.

(** X2: [get_eq_z()] returns [(x, y, z)] exactly when [get_eq()] returns
    three values whose components of index 2 are [x], [y] and [z]. *)
Theorem get_eq_z_is_component_2_of_get_eq :
  forall (o : Object.t F) (x y z : F),
    Object.get_eq_z o = Ok (x, y, z)
    <-> exists a b c : ndvalue F,
          Object.get_eq o = Ok (a, b, c)
          /\ getitem a 2 = Ok x /\ getitem b 2 = Ok y /\ getitem c 2 = Ok z.
Proof.
  intros o x y z. unfold Object.get_eq_z, Object.get_eq.
  destruct (Object.get_a o) as [a | e]; cbn [bind].
  - destruct (Object.get_c o) as [c | e]; cbn [bind].
    + split.
      * intros H. exists a, (Object.get_b o), c.
        destruct (getitem a 2); cbn [bind] in H; try discriminate.
        destruct (getitem (Object.get_b o) 2); cbn [bind] in H;
          try discriminate.
        destruct (getitem c 2); cbn [bind] in H; try discriminate.
        now injection H as -> -> ->.
      * intros (a' & b' & c' & [= <- <- <-] & Ha & Hb & Hc).
        now rewrite Ha, Hb, Hc.
    + split.
      * intros H.
        destruct (getitem a 2); cbn [bind] in H; try discriminate.
        destruct (getitem (Object.get_b o) 2); cbn [bind] in H; discriminate.
      * intros (a' & b' & c' & [=] & _).
  - split; [ discriminate | intros (a' & b' & c' & [=] & _) ].
Qed.

Lemma nth_error_map3_some (f : F -> F -> F -> F) (xs ys zs : list F)
    (i : nat) (x y z : F) :
  nth_error xs i = Some x -> nth_error ys i = Some y ->
  nth_error zs i = Some z ->
  nth_error (map3 f xs ys zs) i = Some (f x y z).
Proof.
  revert xs ys zs; induction i as [|i IH]; intros [|x' xs] [|y' ys] [|z' zs];
    simpl; try discriminate.
  - now intros [= ->] [= ->] [= ->].
  - apply IH.
Qed.

Lemma motion_as_map3 (t : F) (xs ys zs : list F) :
  map2 add (map2 add (map (fun x => mul x (pow2 t)) xs)
                     (map (fun y => mul y t) ys)) zs
  = map3 (fun x y z => motion x y z t) xs ys zs.
Proof.
  revert ys zs; induction xs as [|x xs IH]; intros [|y ys] [|z zs];
    simpl; try reflexivity.
  now rewrite IH.
Qed.

Lemma broadcast_array_scalar (op : F -> F -> F) (xs : list F) (y : F) :
  broadcast op (Array xs) (Scalar y) = Ok (Array (map (fun x => op x y) xs)).
Proof. reflexivity. Qed.

Lemma broadcast_scalar_array (op : F -> F -> F) (x : F) (ys : list F) :
  broadcast op (Scalar x) (Array ys) = Ok (Array (map (op x) ys)).
Proof. reflexivity. Qed.

Lemma broadcast_scalar_scalar (op : F -> F -> F) (x y : F) :
  broadcast op (Scalar x) (Scalar y) = Ok (Scalar (op x y)).
Proof. reflexivity. Qed.

Lemma distance_of_time (xs ys zs : list F) (t : F) :
  length xs = length ys -> length ys = length zs ->
  SecondOrderEq.get_time_contact_ground
    (SecondOrderEq.__init__ (Array xs) (Array ys) (Array zs)) = Ok t ->
  SecondOrderEq.get_distance_at_contact_ground
    (SecondOrderEq.__init__ (Array xs) (Array ys) (Array zs))
  = Ok (Array (map3 (fun x y z => motion x y z t) xs ys zs)).
Proof.
  intros Hxy Hyz Ht. unfold SecondOrderEq.get_distance_at_contact_ground.
  rewrite Ht. cbn [bind SecondOrderEq.a SecondOrderEq.b SecondOrderEq.c].
  rewrite !broadcast_array_scalar. cbn [bind].
  rewrite (broadcast_same_length add) by (rewrite !length_map; congruence).
  cbn [bind]. rewrite (broadcast_same_length add).
  - now rewrite motion_as_map3.
  - rewrite map2_length; rewrite !length_map; congruence.
Qed.

(** X3: on coefficient arrays of one common length, the solver needs at
    least three components.  With fewer, [get_time_contact_ground()] and
    [get_distance_at_contact_ground()] raise [IndexError]; otherwise the
    time is the selected root of the equation of index 2, whatever the other
    components are, and the distance is the motion equation evaluated at
    that one time on every axis, its square being the scalar power
    [pow(t, 2)]. *)
Theorem solver_on_arrays_of_any_length :
  forall xs ys zs : list F,
    length xs = length ys -> length ys = length zs ->
    let self := SecondOrderEq.__init__ (Array xs) (Array ys) (Array zs) in
    (length xs < 3 ->
     SecondOrderEq.get_time_contact_ground self = Raise IndexError
     /\ SecondOrderEq.get_distance_at_contact_ground self = Raise IndexError)
    /\ (forall a b c : F,
        nth_error xs 2 = Some a -> nth_error ys 2 = Some b ->
        nth_error zs 2 = Some c ->
        let t := select (root_minus a b c) (root_plus a b c) in
        SecondOrderEq.get_time_contact_ground self = Ok t
        /\ SecondOrderEq.get_distance_at_contact_ground self
           = Ok (Array (map3 (fun x y z => motion x y z t) xs ys zs))).
Proof.
  intros xs ys zs Hxy Hyz self.
  pose proof (roots_arrays xs ys zs Hxy Hyz) as Hroots. fold self in Hroots.
  split.
  - intros Hshort.
    assert (Htime : SecondOrderEq.get_time_contact_ground self
                    = Raise IndexError).
    { unfold SecondOrderEq.get_time_contact_ground. rewrite Hroots.
      cbn [bind fst getitem].
      assert (Hnone : nth_error (map3 root_minus xs ys zs) 2 = None)
        by (apply nth_error_None; rewrite map3_length by assumption;
            apply PeanoNat.lt_n_Sm_le, Hshort).
      now rewrite Hnone. }
    split; [ exact Htime | ].
    unfold SecondOrderEq.get_distance_at_contact_ground. now rewrite Htime.
  - intros a b c Ha Hb Hc t.
    assert (Htime : SecondOrderEq.get_time_contact_ground self = Ok t).
    { apply time_of_roots with (1 := Hroots); cbn [getitem];
        now rewrite (nth_error_map3_some _ _ _ _ _ Ha Hb Hc). }
    split; [ exact Htime | now apply distance_of_time ].
Qed.

(** X7: on any solver, a strictly negative contact time is only returned
    when both roots of index 2 are strictly negative, and it is then the
    second root. *)
Theorem negative_time_needs_two_negative_roots :
  forall (self : SecondOrderEq.t F) (r1 r2 : ndvalue F) (x1 x2 t : F),
    SecondOrderEq.roots self = Ok (r1, r2) ->
    getitem r1 2 = Ok x1 ->
    getitem r2 2 = Ok x2 ->
    SecondOrderEq.get_time_contact_ground self = Ok t ->
    lt t zero = true ->
    lt x1 zero = true /\ lt x2 zero = true /\ t = x2.
Proof.
  intros self r1 r2 x1 x2 t Hroots H1 H2 Ht Hneg.
  rewrite (time_of_roots self Hroots H1 H2) in Ht. injection Ht as <-.
  unfold select in *. destruct (lt x1 zero) eqn:Hx1.
  - now repeat split.
  - rewrite Hx1 in Hneg. discriminate.
Qed.

Lemma map2_repeat_l (op : F -> F -> F) (x : F) (ys : list F) :
  map2 op (repeat x (length ys)) ys = map (op x) ys.
Proof. induction ys as [|y ys IH]; simpl; [ | rewrite IH ]; reflexivity. Qed.

Lemma map2_repeat_r (op : F -> F -> F) (y : F) (xs : list F) :
  map2 op xs (repeat y (length xs)) = map (fun x => op x y) xs.
Proof. induction xs as [|x xs IH]; simpl; [ | rewrite IH ]; reflexivity. Qed.

Lemma map2_repeat_r_len (op : F -> F -> F) (y : F) (xs : list F) (n : nat) :
  length xs = n -> map2 op xs (repeat y n) = map (fun x => op x y) xs.
Proof. intros <-. apply map2_repeat_r. Qed.

Lemma map2_repeat_l_len (op : F -> F -> F) (x : F) (ys : list F) (n : nat) :
  length ys = n -> map2 op (repeat x n) ys = map (op x) ys.
Proof. intros <-. apply map2_repeat_l. Qed.

Lemma broadcast_scalar_l (op : F -> F -> F) (x : F) (ys : list F) :
  broadcast op (Scalar x) (Array ys)
  = broadcast op (Array (repeat x (length ys))) (Array ys).
Proof.
  rewrite broadcast_same_length by apply repeat_length.
  now rewrite map2_repeat_l.
Qed.

Lemma broadcast_scalar_r (op : F -> F -> F) (xs : list F) (y : F) :
  broadcast op (Array xs) (Scalar y)
  = broadcast op (Array xs) (Array (repeat y (length xs))).
Proof.
  rewrite broadcast_same_length by (symmetry; apply repeat_length).
  now rewrite map2_repeat_r.
Qed.

Lemma nth_error_map2_some (op : F -> F -> F) (xs ys : list F) (i : nat)
    (x y : F) :
  nth_error xs i = Some x -> nth_error ys i = Some y ->
  nth_error (map2 op xs ys) i = Some (op x y).
Proof.
  revert xs ys; induction i as [|i IH]; intros [|x' xs] [|y' ys];
    simpl; try discriminate.
  - now intros [= ->] [= ->].
  - apply IH.
Qed.

Lemma getitem_short (xs : list F) (i : nat) :
  length xs <= i -> getitem (Array xs) i = Raise IndexError.
Proof.
  intros Hlen. cbn [getitem].
  now rewrite (proj2 (nth_error_None xs i) Hlen).
Qed.

(** X12: [get_eq()] works in any dimension and only requires the position
    and the collision boundary to have one length; it does not compare
    them with the velocity or the gravity.  [get_eq_z()] returns the
    components of index 2 when they exist and raises [IndexError] as soon
    as the gravity, the velocity or the position has fewer than three
    components. *)
Theorem coefficients_in_any_dimension :
  forall p v k gs : list F,
    length p = length k ->
    let o := Object.__init__ (PyList p) (PyList v) (PyList k)
               (Some (ArrayLike (NdValue (Array gs)))) in
    Object.get_eq o
    = Ok (Array (map (mul half) gs), Array v, Array (map2 sub p k))
    /\ (forall g2 v2 p2 k2 : F,
        nth_error gs 2 = Some g2 -> nth_error v 2 = Some v2 ->
        nth_error p 2 = Some p2 -> nth_error k 2 = Some k2 ->
        Object.get_eq_z o = Ok (mul half g2, v2, sub p2 k2))
    /\ (length gs < 3 \/ length v < 3 \/ length p < 3 ->
        Object.get_eq_z o = Raise IndexError).
Proof.
  intros p v k gs Hpk o.
  assert (Hc : Object.get_c o = Ok (Array (map2 sub p k)))
    by (apply broadcast_same_length, Hpk).
  assert (Ha : Object.get_a o = Ok (Array (map (mul half) gs)))
    by reflexivity.
  split; [ | split ].
  - unfold Object.get_eq. now rewrite Ha, Hc.
  - intros g2 v2 p2 k2 Hg Hv Hp Hk.
    unfold Object.get_eq_z. rewrite Ha, Hc. cbn [bind getitem].
    rewrite (map_nth_error (mul half) 2 gs Hg). cbn [bind].
    change (Object.get_b o) with (Array v). cbn [getitem].
    rewrite Hv. cbn [bind].
    now rewrite (nth_error_map2_some sub p k 2 Hp Hk).
  - intros Hshort. unfold Object.get_eq_z. rewrite Ha, Hc. cbn [bind].
    destruct (Nat.lt_ge_cases (length gs) 3) as [Hg | Hg].
    { rewrite getitem_short; [ reflexivity | ].
      rewrite length_map. now apply PeanoNat.lt_n_Sm_le. }
    destruct (getitem (Array (map (mul half) gs)) 2) as [a2 | e] eqn:Ea.
    2: { cbn [getitem] in Ea.
         destruct (nth_error (map (mul half) gs) 2); [ discriminate | ].
         now injection Ea as <-. }
    cbn [bind]. change (Object.get_b o) with (Array v).
    destruct (Nat.lt_ge_cases (length v) 3) as [Hv | Hv].
    { rewrite getitem_short; [ reflexivity | ].
      now apply PeanoNat.lt_n_Sm_le. }
    destruct (getitem (Array v) 2) as [b2 | e] eqn:Eb.
    2: { cbn [getitem] in Eb.
         destruct (nth_error v 2); [ discriminate | ].
         now injection Eb as <-. }
    cbn [bind].
    assert (Hp : length p < 3) by (destruct Hshort as [H | [H | H]]; lia).
    rewrite getitem_short; [ reflexivity | ].
    rewrite map2_length by assumption. now apply PeanoNat.lt_n_Sm_le.
Qed.

(** X13: when the leading coefficients and the constant terms are arrays
    whose lengths differ and neither has length one, every method of the
    solver raises [ValueError]. *)
Theorem solver_rejects_mismatched_shapes :
  forall (xs zs : list F) (bv : ndvalue F),
    length xs <> length zs -> length xs <> 1 -> length zs <> 1 ->
    let self := SecondOrderEq.__init__ (Array xs) bv (Array zs) in
    SecondOrderEq.discriminant self = Raise ValueError
    /\ SecondOrderEq.roots self = Raise ValueError
    /\ SecondOrderEq.get_time_contact_ground self = Raise ValueError
    /\ SecondOrderEq.get_distance_at_contact_ground self = Raise ValueError.
Proof.
  intros xs zs bv Hne Hx Hz self.
  assert (Hd : SecondOrderEq.discriminant self = Raise ValueError).
  { unfold SecondOrderEq.discriminant, scale, self.
    cbn [SecondOrderEq.a SecondOrderEq.c ufunc].
    rewrite (proj1 (broadcast_shapes mul (map (mul four) xs) zs));
      [ reflexivity | rewrite length_map; auto ]. }
  assert (Hr : SecondOrderEq.roots self = Raise ValueError)
    by (unfold SecondOrderEq.roots; now rewrite Hd).
  assert (Ht : SecondOrderEq.get_time_contact_ground self = Raise ValueError)
    by (unfold SecondOrderEq.get_time_contact_ground; now rewrite Hr).
  repeat split; try assumption.
  unfold SecondOrderEq.get_distance_at_contact_ground. now rewrite Ht.
Qed.

Lemma solver_broadcasts_scalar_a (x : F) (ys zs : list F) :
  length ys = length zs ->
  let scalar := SecondOrderEq.__init__ (Scalar x) (Array ys) (Array zs) in
  let vector := SecondOrderEq.__init__
                  (Array (repeat x (length ys))) (Array ys) (Array zs) in
  SecondOrderEq.discriminant scalar = SecondOrderEq.discriminant vector
  /\ SecondOrderEq.roots scalar = SecondOrderEq.roots vector
  /\ SecondOrderEq.get_time_contact_ground scalar
     = SecondOrderEq.get_time_contact_ground vector
  /\ SecondOrderEq.get_distance_at_contact_ground scalar
     = SecondOrderEq.get_distance_at_contact_ground vector.
Proof.
  intros Hyz scalar vector.
  assert (Hxy : length (repeat x (length ys)) = length ys)
    by apply repeat_length.
  assert (Hd : SecondOrderEq.discriminant scalar
               = SecondOrderEq.discriminant vector).
  { unfold SecondOrderEq.discriminant, scale, scalar, vector.
    cbn [SecondOrderEq.a SecondOrderEq.b SecondOrderEq.c ufunc power2].
    rewrite broadcast_scalar_l, map_repeat. now rewrite Hyz. }
  assert (Hr : SecondOrderEq.roots scalar = SecondOrderEq.roots vector).
  { unfold vector at 1. rewrite (roots_arrays _ _ _ Hxy Hyz).
    pose proof (discriminant_arrays _ _ _ Hxy Hyz) as Hdv.
    fold vector in Hdv. rewrite <- Hd in Hdv.
    unfold SecondOrderEq.roots. rewrite Hdv. unfold scale, scalar.
    cbn [bind SecondOrderEq.a SecondOrderEq.b ufunc].
    assert (Hs : length (map sqrt (map3 disc (repeat x (length ys)) ys zs))
                 = length ys)
      by (rewrite length_map, map3_length; congruence).
    rewrite (broadcast_same_length sub) by (rewrite length_map; congruence).
    cbn [bind]. rewrite broadcast_array_scalar. cbn [bind].
    rewrite (broadcast_same_length add) by (rewrite length_map; congruence).
    cbn [bind]. rewrite broadcast_array_scalar. cbn [bind].
    rewrite <- (root_minus_as_map3 _ _ _ Hxy Hyz),
            <- (root_plus_as_map3 _ _ _ Hxy Hyz).
    rewrite map_repeat.
    assert (Hn : forall op : F -> F -> F,
               length (map2 op (map neg ys)
                         (map sqrt (map3 disc (repeat x (length ys)) ys zs)))
               = length ys)
      by (intros op; rewrite map2_length; rewrite length_map; congruence).
    now rewrite !map2_repeat_r_len by apply Hn. }
  assert (Ht : SecondOrderEq.get_time_contact_ground scalar
               = SecondOrderEq.get_time_contact_ground vector)
    by (unfold SecondOrderEq.get_time_contact_ground; now rewrite Hr).
  repeat split; try assumption.
  unfold SecondOrderEq.get_distance_at_contact_ground. rewrite Ht.
  destruct (SecondOrderEq.get_time_contact_ground vector) as [t | e];
    [ | reflexivity ].
  cbn [bind]. unfold scalar, vector.
  cbn [SecondOrderEq.a SecondOrderEq.b SecondOrderEq.c].
  rewrite !broadcast_array_scalar, broadcast_scalar_scalar. cbn [bind].
  rewrite broadcast_scalar_array. cbn [bind].
  rewrite (broadcast_same_length add (map _ (repeat x (length ys))))
    by (rewrite !length_map, repeat_length; reflexivity).
  cbn [bind]. rewrite map_repeat.
  now rewrite map2_repeat_l_len by apply length_map.
Qed.

(** X10: a gravity given as a [numpy.float64] scalar is accepted by
    [get_eq()] and by the solver, which applies it to every axis:
    discriminant, roots, contact time and distance are those of the vector
    gravity with that value in every component.  Only [get_eq_z()] rejects
    it, with [IndexError]. *)
Theorem scalar_gravity_acts_on_every_axis :
  forall (x : F) (p v k : list F),
    length p = length k -> length v = length p ->
    let o := Object.__init__ (PyList p) (PyList v) (PyList k)
               (Some (ArrayLike (NdValue (Scalar x)))) in
    let o' := Object.__init__ (PyList p) (PyList v) (PyList k)
                (Some (ArrayLike (NdValue (Array (repeat x (length p)))))) in
    exists (a : F) (b c : ndvalue F),
      Object.get_eq o = Ok (Scalar a, b, c)
      /\ Object.get_eq o' = Ok (Array (repeat a (length p)), b, c)
      /\ SecondOrderEq.roots (SecondOrderEq.__init__ (Scalar a) b c)
         = SecondOrderEq.roots
             (SecondOrderEq.__init__ (Array (repeat a (length p))) b c)
      /\ SecondOrderEq.get_time_contact_ground
           (SecondOrderEq.__init__ (Scalar a) b c)
         = SecondOrderEq.get_time_contact_ground
             (SecondOrderEq.__init__ (Array (repeat a (length p))) b c)
      /\ SecondOrderEq.get_distance_at_contact_ground
           (SecondOrderEq.__init__ (Scalar a) b c)
         = SecondOrderEq.get_distance_at_contact_ground
             (SecondOrderEq.__init__ (Array (repeat a (length p))) b c)
      /\ Object.get_eq_z o = Raise IndexError.
Proof.
  intros x p v k Hpk Hvp o o'.
  assert (Hc : broadcast sub (Array p) (Array k) = Ok (Array (map2 sub p k)))
    by (apply broadcast_same_length, Hpk).
  exists (mul half x), (Array v), (Array (map2 sub p k)).
  assert (Hlen : length v = length (map2 sub p k))
    by (rewrite map2_length; assumption).
  destruct (solver_broadcasts_scalar_a (mul half x) v (map2 sub p k) Hlen)
    as (_ & Hr & Ht & Hdist).
  rewrite Hvp in Hr, Ht, Hdist.
  split; [ | split; [ | split; [ exact Hr | split; [ exact Ht | split;
    [ exact Hdist | reflexivity ] ] ] ] ].
  - unfold Object.get_eq, Object.get_c, o. cbn [Object.__init__ Object.pos
      Object.collision_condition np_array]. now rewrite Hc.
  - unfold Object.get_eq, Object.get_c, Object.get_a, o'.
    cbn [Object.__init__ Object.pos Object.collision_condition Object.g
         np_array scale ufunc].
    rewrite Hc, map_repeat. reflexivity.
Qed.

End Shapes.

(** ** Further properties in binary64 *)

Section Binary64NaN.
Local Open Scope float_scope.

Lemma is_nan_spec (x : float) :
  is_nan x = true <-> Prim2SF x = S754_nan.
Proof.
  unfold is_nan. rewrite eqb_spec.
  destruct (Prim2SF x) as [s| s | | s m e].
  - split; discriminate.
  - destruct s; split; discriminate.
  - split; reflexivity.
  - rewrite SFeqb_refl_finite. split; discriminate.
Qed.

Lemma SFsub_nan_r (x : spec_float) : SF64sub x S754_nan = S754_nan.
Proof. now destruct x. Qed.

Lemma SFadd_nan_r (x : spec_float) : SF64add x S754_nan = S754_nan.
Proof. now destruct x. Qed.

Lemma SFmul_nan_r (x : spec_float) : SF64mul x S754_nan = S754_nan.
Proof. now destruct x. Qed.

Lemma SFdiv_nan_r (x : spec_float) : SF64div x S754_nan = S754_nan.
Proof. now destruct x. Qed.

(** A NaN coefficient makes the discriminant NaN. *)
Lemma disc_of_nan (a b c : float) :
  is_nan a || is_nan b || is_nan c = true -> is_nan (disc a b c) = true.
Proof.
  intros H. apply is_nan_spec. unfold disc. cbn [sub mul four Number_float].
  rewrite sub_spec, !mul_spec.
  apply orb_true_iff in H as [H | H];
    [ apply orb_true_iff in H as [H | H] | ];
    apply is_nan_spec in H; rewrite H.
  - now rewrite SFmul_nan_r, SFsub_nan_r.
  - reflexivity.
  - now rewrite SFmul_nan_r, SFsub_nan_r.
Qed.

(** A negative or NaN discriminant makes both roots NaN. *)
Lemma roots_of_bad_discriminant (a b c : float) :
  (disc a b c <? 0) || is_nan (disc a b c) = true ->
  is_nan (root_minus a b c) = true /\ is_nan (root_plus a b c) = true.
Proof.
  unfold root_minus, root_plus.
  cbn [div sub add neg sqrt mul two Number_float].
  generalize (disc a b c); intros d Hbad.
  assert (Hs : SF64sqrt (Prim2SF d) = S754_nan).
  { apply orb_true_iff in Hbad as [Hneg | Hnan].
    - rewrite ltb_spec in Hneg. now apply SFsqrt_negative.
    - apply is_nan_spec in Hnan. now rewrite Hnan. }
  split; apply is_nan_spec;
    rewrite div_spec, ?sub_spec, ?add_spec, sqrt_spec, Hs,
      ?SFsub_nan_r, ?SFadd_nan_r; reflexivity.
Qed.

Lemma select_nan (r1 r2 : float) :
  is_nan r1 = true -> is_nan (select r1 r2) = true.
Proof.
  intros H. unfold select. cbn [lt zero Number_float].
  rewrite ltb_spec. apply is_nan_spec in H as H'. rewrite H'.
  cbn. exact H.
Qed.

Lemma motion_nan (a b c t : float) :
  is_nan t = true -> is_nan (motion a b c t) = true.
Proof.
  intros H. apply is_nan_spec in H. apply is_nan_spec.
  unfold motion. cbn [add mul pow2 Number_float].
  rewrite !add_spec, !mul_spec, H.
  now rewrite !SFmul_nan_r.
Qed.

Lemma nan_time_and_distance (a0 a1 a2 b0 b1 b2 c0 c1 c2 : float) :
  (disc a2 b2 c2 <? 0) || is_nan (disc a2 b2 c2) = true ->
  let self := SecondOrderEq.__init__
                (arr3 a0 a1 a2) (arr3 b0 b1 b2) (arr3 c0 c1 c2) in
  exists t p0 p1 p2 : float,
    SecondOrderEq.get_time_contact_ground self = Ok t
    /\ SecondOrderEq.get_distance_at_contact_ground self = Ok (arr3 p0 p1 p2)
    /\ is_nan t = true
    /\ is_nan p0 = true /\ is_nan p1 = true /\ is_nan p2 = true.
Proof.
  intros Hbad self.
  destruct (roots_of_bad_discriminant _ _ _ Hbad) as [H1 _].
  set (t := select (root_minus a2 b2 c2) (root_plus a2 b2 c2)).
  assert (Ht : is_nan t = true) by now apply select_nan.
  exists t, (motion a0 b0 c0 t), (motion a1 b1 c1 t), (motion a2 b2 c2 t).
  split; [ apply time_vec3 | ].
  split; [ apply distance_vec3 | ].
  repeat split; auto using motion_nan.
Qed.

(** X5: in binary64, when the discriminant of the vertical equation is
    negative (the trajectory never meets the boundary), nothing raises:
    [get_time_contact_ground()] returns NaN, and every component of
    [get_distance_at_contact_ground()] is NaN. *)
Theorem no_contact_is_reported_as_nan :
  forall a0 a1 a2 b0 b1 b2 c0 c1 c2 : float,
    (disc a2 b2 c2 <? 0) = true ->
    let self := SecondOrderEq.__init__
                  (arr3 a0 a1 a2) (arr3 b0 b1 b2) (arr3 c0 c1 c2) in
    exists t p0 p1 p2 : float,
      SecondOrderEq.get_time_contact_ground self = Ok t
      /\ SecondOrderEq.get_distance_at_contact_ground self
         = Ok (arr3 p0 p1 p2)
      /\ is_nan t = true
      /\ is_nan p0 = true /\ is_nan p1 = true /\ is_nan p2 = true.
Proof.
  intros a0 a1 a2 b0 b1 b2 c0 c1 c2 Hneg.
  apply nan_time_and_distance. now rewrite Hneg.
Qed.

(** X5, at an instance: thrown upwards at 1 m/s from 10 m below the
    boundary under gravity [(0, 0, -10)]; the boundary is never reached. *)
Lemma no_contact_is_reported_as_nan_at_weak_throw :
  let self := SecondOrderEq.__init__
                (arr3 0 0 (-5)) (arr3 0 0 1) (arr3 0 0 (-10)) in
  exists t p0 p1 p2 : float,
    SecondOrderEq.get_time_contact_ground self = Ok t
    /\ SecondOrderEq.get_distance_at_contact_ground self = Ok (arr3 p0 p1 p2)
    /\ is_nan t = true
    /\ is_nan p0 = true /\ is_nan p1 = true /\ is_nan p2 = true.
Proof.
  apply (@no_contact_is_reported_as_nan 0 0 (-5) 0 0 1 0 0 (-10)).
  reflexivity.
Defined.

(** X6: in binary64, a NaN in any of the three vertical coefficients
    propagates silently: the contact time and every component of the
    distance at contact are NaN. *)
Theorem nan_coefficient_propagates :
  forall a0 a1 a2 b0 b1 b2 c0 c1 c2 : float,
    is_nan a2 || is_nan b2 || is_nan c2 = true ->
    let self := SecondOrderEq.__init__
                  (arr3 a0 a1 a2) (arr3 b0 b1 b2) (arr3 c0 c1 c2) in
    exists t p0 p1 p2 : float,
      SecondOrderEq.get_time_contact_ground self = Ok t
      /\ SecondOrderEq.get_distance_at_contact_ground self
         = Ok (arr3 p0 p1 p2)
      /\ is_nan t = true
      /\ is_nan p0 = true /\ is_nan p1 = true /\ is_nan p2 = true.
Proof.
  intros a0 a1 a2 b0 b1 b2 c0 c1 c2 Hnan.
  apply nan_time_and_distance.
  rewrite (disc_of_nan _ _ _ Hnan). apply orb_true_r.
Qed.

(** X6, at an instance: an unknown initial height. *)
Lemma nan_coefficient_propagates_at_unknown_height :
  let self := SecondOrderEq.__init__
                (arr3 0 0 (-5)) (arr3 0 0 0) (arr3 0 0 nan) in
  exists t p0 p1 p2 : float,
    SecondOrderEq.get_time_contact_ground self = Ok t
    /\ SecondOrderEq.get_distance_at_contact_ground self = Ok (arr3 p0 p1 p2)
    /\ is_nan t = true
    /\ is_nan p0 = true /\ is_nan p1 = true /\ is_nan p2 = true.
Proof.
  apply (@nan_coefficient_propagates 0 0 (-5) 0 0 0 0 0 nan).
  reflexivity.
Defined.

End Binary64NaN.

(** ** Further properties in exact arithmetic *)

Section ExactKinematics.
Local Open Scope R_scope.

(** X4: in exact arithmetic, for a nonzero leading coefficient and a
    discriminant that is not negative, [roots()] returns exactly the real
    solutions of [a*t^2 + b*t + c = 0]: each returned value solves the
    equation and every solution is one of them; the two coincide when the
    discriminant is zero. *)
Theorem roots_are_exactly_the_solutions :
  forall a b c : R,
    a <> 0 ->
    0 <= disc a b c ->
    exists r1 r2 : R,
      SecondOrderEq.roots
        (SecondOrderEq.__init__ (Scalar a) (Scalar b) (Scalar c))
      = Ok (Scalar r1, Scalar r2)
      /\ (forall u : R, is_root a b c u <-> u = r1 \/ u = r2)
      /\ (disc a b c = 0 -> r1 = r2 /\ r1 = - b / (2 * a)).
Proof.
  intros a b c Ha Hd. exists (root_minus a b c), (root_plus a b c).
  split; [ reflexivity | ].
  destruct (formula_roots_are_roots Ha Hd) as [H1 H2].
  split.
  - intros u. split.
    + intros Hu. now apply root_is_formula_root.
    + now intros [-> | ->].
  - intros Hzero. rewrite R_root_minus, R_root_plus, Hzero, sqrt_0.
    split; field; assumption.
Qed.

Lemma roots_are_exactly_the_solutions_at_1_and_2 :
  exists r1 r2 : R,
    SecondOrderEq.roots
      (SecondOrderEq.__init__ (Scalar 1) (Scalar (- 3)) (Scalar 2))
    = Ok (Scalar r1, Scalar r2)
    /\ (forall u : R, is_root 1 (- 3) 2 u <-> u = r1 \/ u = r2)
    /\ (disc 1 (- 3) 2 = 0 -> r1 = r2 /\ r1 = - - 3 / (2 * 1)).
Proof.
  apply (@roots_are_exactly_the_solutions 1 (- 3) 2).
  - lra.
  - rewrite R_disc. lra.
Defined.

(** X8: in exact arithmetic, an object released at rest (no vertical
    velocity) at height [h > 0] above the collision boundary under vertical
    gravity [g < 0] gets the contact time [sqrt (2 * h / - g)]. *)
Theorem free_fall_from_rest :
  forall p0 p1 p2 v0 v1 k0 k1 k2 g0 g1 g2 : R,
    g2 < 0 ->
    k2 < p2 ->
    let o := Object.__init__ (vec3 p0 p1 p2) (vec3 v0 v1 0) (vec3 k0 k1 k2)
               (Some (ArrayLike (NdValue (arr3 g0 g1 g2)))) in
    exists a b c : ndvalue R,
      Object.get_eq o = Ok (a, b, c)
      /\ SecondOrderEq.get_time_contact_ground (SecondOrderEq.__init__ a b c)
         = Ok (R_sqrt.sqrt (2 * (p2 - k2) / - g2)).
Proof.
  intros p0 p1 p2 v0 v1 k0 k1 k2 g0 g1 g2 Hg Hh o.
  eexists _, _, _. split; [ apply get_eq_vec3 | ].
  rewrite time_vec3. f_equal. cbn [mul sub half Number_R].
  set (a := 1 / 2 * g2). set (h := p2 - k2).
  assert (Ha : a < 0) by (unfold a; lra).
  assert (Hh' : 0 < h) by (unfold h; lra).
  assert (Hah : a * h < 0) by nra.
  assert (Hd : 0 <= disc a 0 h) by (rewrite R_disc; nra).
  destruct (@formula_roots a 0 h ltac:(lra) Hd) as (s & Hs & Hss & H1 & _).
  rewrite R_disc in Hss.
  assert (Hr : 0 <= root_minus a 0 h) by nra.
  rewrite (proj2 (R_select _ (root_plus a 0 h)) Hr).
  symmetry. apply sqrt_lem_1; [ | exact Hr | ].
  - apply Rmult_le_pos; [ lra | ].
    apply Rlt_le, Rinv_0_lt_compat. lra.
  - apply Rmult_eq_reg_l with (4 * a * a); [ | nra ].
    replace (4 * a * a * (2 * h / - g2)) with (- 4 * a * h)
      by (unfold a; field; lra).
    nra.
Qed.

Lemma free_fall_from_rest_at_height_10 :
  let o := Object.__init__ (vec3 0 0 10) (vec3 0 0 0) (vec3 0 0 0)
             (Some (ArrayLike (NdValue (arr3 0 0 (- 5))))) in
  exists a b c : ndvalue R,
    Object.get_eq o = Ok (a, b, c)
    /\ SecondOrderEq.get_time_contact_ground (SecondOrderEq.__init__ a b c)
       = Ok (R_sqrt.sqrt (2 * (10 - 0) / - - 5)).
Proof.
  apply (@free_fall_from_rest 0 0 10 0 0 0 0 0 0 0 (- 5)); lra.
Defined.

(** X9: in exact arithmetic, an object that starts on the collision
    boundary under vertical gravity [g < 0] gets the contact time
    [2 * v / - g] when its vertical velocity [v] is not negative (the time
    to come back down), and 0 when it is negative. *)
Theorem launch_from_the_boundary :
  forall p0 p1 k0 k1 h v0 v1 v2 g0 g1 g2 : R,
    g2 < 0 ->
    let o := Object.__init__ (vec3 p0 p1 h) (vec3 v0 v1 v2) (vec3 k0 k1 h)
               (Some (ArrayLike (NdValue (arr3 g0 g1 g2)))) in
    exists (a b c : ndvalue R) (t : R),
      Object.get_eq o = Ok (a, b, c)
      /\ SecondOrderEq.get_time_contact_ground (SecondOrderEq.__init__ a b c)
         = Ok t
      /\ (0 <= v2 -> t = 2 * v2 / - g2)
      /\ (v2 < 0 -> t = 0).
Proof.
  intros p0 p1 k0 k1 h v0 v1 v2 g0 g1 g2 Hg o.
  eexists _, _, _, _. split; [ apply get_eq_vec3 | ].
  split; [ apply time_vec3 | ].
  cbn [mul sub half Number_R].
  replace (h - h) with 0 by ring.
  set (a := 1 / 2 * g2).
  assert (Ha : a < 0) by (unfold a; lra).
  assert (Hd : 0 <= disc a v2 0) by (rewrite R_disc; nra).
  destruct (@formula_roots a v2 0 ltac:(lra) Hd) as (s & Hs & Hss & H1 & _).
  rewrite R_disc in Hss.
  split.
  - intros Hv.
    assert (Hsv : s = v2) by nra.
    assert (Hr : root_minus a v2 0 = 2 * v2 / - g2).
    { apply Rmult_eq_reg_l with (2 * a); [ | lra ].
      rewrite H1, Hsv. unfold a. field. lra. }
    assert (Hpos : 0 <= root_minus a v2 0).
    { rewrite Hr. apply Rmult_le_pos; [ lra | ].
      apply Rlt_le, Rinv_0_lt_compat. lra. }
    now rewrite (proj2 (R_select _ (root_plus a v2 0)) Hpos).
  - intros Hv.
    assert (Hsv : s = - v2) by nra.
    assert (Hr : root_minus a v2 0 = 0).
    { apply Rmult_eq_reg_l with (2 * a); [ | lra ]. rewrite H1, Hsv. ring. }
    rewrite (proj2 (R_select _ (root_plus a v2 0))); [ exact Hr | lra ].
Qed.

Lemma launch_from_the_boundary_at_5_upwards :
  let o := Object.__init__ (vec3 0 0 0) (vec3 0 0 5) (vec3 0 0 0)
             (Some (ArrayLike (NdValue (arr3 0 0 (- 10))))) in
  exists (a b c : ndvalue R) (t : R),
    Object.get_eq o = Ok (a, b, c)
    /\ SecondOrderEq.get_time_contact_ground (SecondOrderEq.__init__ a b c)
       = Ok t
    /\ (0 <= 5 -> t = 2 * 5 / - - 10)
    /\ (5 < 0 -> t = 0).
Proof.
  apply (@launch_from_the_boundary 0 0 0 0 0 0 0 5 0 0 (- 10)); lra.
Defined.

(** X11: in exact arithmetic the coefficients, and with them everything the
    solver computes, depend on the position and the collision boundary only
    through their difference: moving both by the same vector changes
    nothing. *)
Theorem coefficients_are_translation_invariant :
  forall p0 p1 p2 v0 v1 v2 k0 k1 k2 g0 g1 g2 d0 d1 d2 : R,
    Object.get_eq
      (Object.__init__ (vec3 (p0 + d0) (p1 + d1) (p2 + d2)) (vec3 v0 v1 v2)
         (vec3 (k0 + d0) (k1 + d1) (k2 + d2))
         (Some (ArrayLike (NdValue (arr3 g0 g1 g2)))))
    = Object.get_eq
        (Object.__init__ (vec3 p0 p1 p2) (vec3 v0 v1 v2) (vec3 k0 k1 k2)
           (Some (ArrayLike (NdValue (arr3 g0 g1 g2))))).
Proof.
  intros. rewrite !get_eq_vec3. cbn [sub Number_R]. unfold arr3.
  do 2 f_equal. repeat (f_equal; try ring).
Qed.

End ExactKinematics.

(** ** The further properties at binary64 inputs *)

Section FurtherInstances.
Local Open Scope float_scope.

(** X1, at an instance: a three-component position over a boundary given
    by a single number. *)
Lemma get_c_needs_matching_shapes_at_one_component_boundary :
  exists rs : list float,
    Object.get_c (Object.__init__ (PyList [1; 2; 3]) (vec3 0 0 0)
                    (PyList [1]) None)
    = Ok (Array rs)
    /\ length rs = 3%nat.
Proof.
  apply (proj2 (get_c_needs_matching_shapes
                  [1; 2; 3] [1] (vec3 0 0 0) None)).
  right; right; reflexivity.
Defined.

(** X3, at an instance: four axes; only the equation of index 2,
    [-5 t^2 + 5 = 0], decides the time, which is 1. *)
Lemma solver_on_arrays_of_any_length_at_four_axes :
  let self := SecondOrderEq.__init__
                (Array [0; 0; -5; 1]) (Array [0; 0; 0; 2])
                (Array [0; 0; 5; 3]) in
  let t := select (root_minus (-5) 0 5) (root_plus (-5) 0 5) in
  SecondOrderEq.get_time_contact_ground self = Ok t
  /\ SecondOrderEq.get_distance_at_contact_ground self
     = Ok (Array (map3 (fun x y z => motion x y z t)
                    [0; 0; -5; 1] [0; 0; 0; 2] [0; 0; 5; 3])).
Proof.
  apply (proj2 (@solver_on_arrays_of_any_length float _
                  [0; 0; -5; 1] [0; 0; 0; 2] [0; 0; 5; 3]
                  eq_refl eq_refl) (-5) 0 5);
    reflexivity.
Defined.

(** X7, at an instance: [t^2 + 3t + 2 = 0] on the vertical axis has the
    roots -2 and -1, and -1 is returned. *)
Lemma negative_time_needs_two_negative_roots_at_minus_1 :
  lt (-2) zero = true /\ lt (-1) zero = true /\ -1 = -1.
Proof.
  apply (@negative_time_needs_two_negative_roots float _
           (SecondOrderEq.__init__ (arr3 0 0 1) (arr3 0 0 3) (arr3 0 0 2))
           (arr3 nan nan (-2)) (arr3 nan nan (-1)) (-2) (-1) (-1));
    reflexivity.
Defined.

(** X10, at an instance: gravity given as the number -10. *)
Lemma scalar_gravity_acts_on_every_axis_at_minus_10 :
  exists (a : float) (b c : ndvalue float),
    Object.get_eq
      (Object.__init__ (PyList [0; 0; 10]) (PyList [0; 0; 0])
         (PyList [0; 0; 0]) (Some (ArrayLike (NdValue (Scalar (-10))))))
    = Ok (Scalar a, b, c)
    /\ SecondOrderEq.get_time_contact_ground
         (SecondOrderEq.__init__ (Scalar a) b c)
       = SecondOrderEq.get_time_contact_ground
           (SecondOrderEq.__init__ (Array (repeat a 3)) b c)
    /\ Object.get_eq_z
         (Object.__init__ (PyList [0; 0; 10]) (PyList [0; 0; 0])
            (PyList [0; 0; 0]) (Some (ArrayLike (NdValue (Scalar (-10))))))
       = Raise IndexError.
Proof.
  destruct (@scalar_gravity_acts_on_every_axis float _ (-10)
              [0; 0; 10] [0; 0; 0] [0; 0; 0] eq_refl eq_refl)
    as (a & b & c & Heq & _ & _ & Ht & _ & Hz).
  exists a, b, c. repeat split; assumption.
Defined.

(** X12, at an instance: a two-dimensional problem. *)
Lemma coefficients_in_any_dimension_at_two_axes :
  let o := Object.__init__ (PyList [0; 10]) (PyList [1; 0]) (PyList [0; 0])
             (Some (ArrayLike (NdValue (Array [0; -10])))) in
  Object.get_eq o = Ok (Array [0; -5], Array [1; 0], Array [0; 10])
  /\ Object.get_eq_z o = Raise IndexError.
Proof.
  destruct (@coefficients_in_any_dimension float _
              [0; 10] [1; 0] [0; 0] [0; -10] eq_refl)
    as (Heq & _ & Hz).
  split; [ exact Heq | apply Hz ].
  left. repeat constructor.
Defined.

(** X13, at an instance: three leading coefficients, two constant terms. *)
Lemma solver_rejects_mismatched_shapes_at_3_and_2 :
  SecondOrderEq.get_time_contact_ground
    (SecondOrderEq.__init__ (Array [0; 0; -5]) (Array [0; 0; 0])
       (Array [0; 10]))
  = Raise ValueError.
Proof.
  apply (@solver_rejects_mismatched_shapes float _
           [0; 0; -5] [0; 10] (Array [0; 0; 0]));
    discriminate.
Defined.

(** Translation invariance needs exact arithmetic: in binary64, moving
    height 1 and boundary 0 up by [2^53] turns the offset 1 into 0. *)
Example translation_changes_the_offset_in_binary64 :
  Object.get_c (Object.__init__ (vec3 0 0 1) (vec3 0 0 0) (vec3 0 0 0) None)
  = Ok (arr3 0 0 1)
  /\ Object.get_c
       (Object.__init__ (vec3 0 0 (1 + 0x1p53)) (vec3 0 0 0)
          (vec3 0 0 (0 + 0x1p53)) None)
     = Ok (arr3 0 0 0).
Proof. split; reflexivity. Qed.

End FurtherInstances.
